(** * Deepchecks: check pipeline glue, weak-segments check, conflicting labels

    A shallow embedding of

    - [deepchecks/nlp/checks/model_evaluation/weak_segments_performance.py]
      ([WeakSegmentsAbstractText.run_logic]),
    - [deepchecks/nlp/checks/data_integrity/conflicting_labels.py]
      ([ConflictingLabels.run_logic]),
    - [deepchecks/recommender/context.py] ([_DummyModel.__init__]),
    - [deepchecks/tabular/base_checks.py] ([SingleDatasetCheck.run]).

    Python exceptions are values of [Error]; a computation that may raise
    returns [result].  Code that calls into other modules runs in the
    monad [M]: it threads a [World] made of the process-global random
    generator state (numpy's ambient generator) and the log of the calls made
    to collaborators so far, so that "what happened before the exception"
    is an ordinary statement on the final world. *)

From Stdlib Require Import QArith ZArith Lia.
From stdpp Require Import base option list strings pretty sorting gmap.

#[local] Open Scope Z_scope.
#[local] Open Scope string_scope.

(** ** Exceptions and results *)

Inductive Error : Type :=
  | DeepchecksNotSupportedError (msg : string)
  | DeepchecksProcessError (msg : string)
  | DeepchecksValueError (msg : string)
  | PyError (cls msg : string).

Inductive result (A : Type) : Type :=
  | Ok (a : A)
  | Raise (e : Error).
Arguments Ok {A} a.
Arguments Raise {A} e.

Definition is_process_error {A} (r : result A) : bool :=
  match r with Raise (DeepchecksProcessError _) => true | _ => false end.
Definition is_ok {A} (r : result A) : bool :=
  match r with Ok _ => true | Raise _ => false end.

(** ** Floats

    Scores are numpy floats.  They are modelled by exact rationals plus the
    not-a-number value that [mean] of an empty array produces. *)

Inductive pyfloat : Type :=
  | Fin (q : Q)
  | NaN.


Definition Qsum (xs : list Q) : Q := foldr Qplus (0%Q) xs.

(** [ndarray.mean()]: not-a-number on an empty array. *)
Definition mean (xs : list Q) : pyfloat :=
  match xs with
  | [] => NaN
  | _ => Fin (Qred (Qsum xs / inject_Z (Z.of_nat (length xs))))
  end.

(** Nearest integer, ties to the even neighbour. *)
Definition round_half_even (q : Q) : Z :=
  let n := Qnum q in
  let d := Zpos (Qden q) in
  let fl := n / d in
  let r := n mod d in
  match (2 * r ?= d) with
  | Lt => fl
  | Gt => fl + 1
  | Eq => if Z.even fl then fl else fl + 1
  end.

(** [round(x, ndigits)] *)
Definition round (x : pyfloat) (ndigits : nat) : pyfloat :=
  match x with
  | NaN => NaN
  | Fin q =>
      let scale := 10 ^ Z.of_nat ndigits in
      Fin (Qred (inject_Z (round_half_even (q * inject_Z scale)) / inject_Z scale))
  end.

(** ** Worlds and the monad of check code *)

(** State of the process-global random generator. *)
Definition Ambient : Type := Z.
Definition Seed : Type := Z.

Inductive Event : Type :=
  | EvSample (n_samples : Z) (random_state : Seed)
  | EvGetRelevantDataTable
  | EvTargetEncode
  | EvModelPredict
  | EvModelPredictProba
  | EvNegCrossEntropy
  | EvDummyModel
  | EvGetSingleScorer
  | EvScorerCall
  | EvWeakSegmentsSearch (score_per_sample : list Q) (with_dummy_model : bool)
  | EvHeatmapDisplay
  | EvGenerateValue
  | EvNormalizeSamples
  | EvHashSamples
  | EvGroupBy
  | EvDisplayTable.

Record World : Type := mkWorld {
  ambient : Ambient;
  trace : list Event;
}.

(** A collaborator: reads and writes the ambient generator, may raise. *)
Definition Eff (A : Type) : Type := Ambient -> Ambient * result A.

Definition M (A : Type) : Type := World -> World * result A.

Definition ret {A} (a : A) : M A := fun w => (w, Ok a).
Definition raise {A} (e : Error) : M A := fun w => (w, Raise e).
Definition bind {A B} (m : M A) (k : A -> M B) : M B :=
  fun w => match m w with
           | (w', Ok a) => k a w'
           | (w', Raise e) => (w', Raise e)
           end.
(** A call to a collaborator is logged before it runs. *)
Definition call {A} (ev : Event) (f : Eff A) : M A :=
  fun w => let '(g, r) := f (ambient w) in
           (mkWorld g (trace w ++ [ev]), r).
(** A pure accessor that may raise; nothing is logged. *)
Definition lift {A} (r : result A) : M A := fun w => (w, r).

#[global] Instance M_ret : MRet M := @ret.
#[global] Instance M_bind : MBind M := fun A B k m => bind m k.

(** [emits P m]: a run of [m] only appends events that satisfy [P]. *)
Definition emits {A} (P : Event -> Prop) (m : M A) : Prop :=
  forall w w' r, m w = (w', r) ->
    exists evs, trace w' = (trace w ++ evs)%list /\ Forall P evs.

(** ** Data model *)

(** [deepchecks.nlp.task_type.TaskType] *)
Inductive TaskType : Type :=
  | TEXT_CLASSIFICATION
  | TOKEN_CLASSIFICATION
  | OTHER.

(** What an f-string prints for a member of a plain [Enum]. *)
Definition TaskType_str (t : TaskType) : string :=
  match t with
  | TEXT_CLASSIFICATION => "TaskType.TEXT_CLASSIFICATION"
  | TOKEN_CLASSIFICATION => "TaskType.TOKEN_CLASSIFICATION"
  | OTHER => "TaskType.OTHER"
  end.

#[global] Instance TaskType_eq_dec : EqDecision TaskType.
Proof. solve_decision. Defined.

Inductive DatasetKind : Type := TRAIN | TEST.

Inductive Atom : Type :=
  | AInt (z : Z)
  | AStr (s : string).

(** A label: a class (number or name), or a sequence of them for
    multi-label and token tasks. *)
Inductive Label : Type :=
  | LInt (z : Z)
  | LStr (s : string)
  | LSeq (items : list Atom).

#[global] Instance Atom_eq_dec : EqDecision Atom.
Proof. solve_decision. Defined.
#[global] Instance Label_eq_dec : EqDecision Label.
Proof. solve_decision. Defined.

Inductive Cell : Type :=
  | CNum (q : Q)
  | CCat (s : string)
  | CNa.

(** A pandas frame: row labels and named columns. *)
Record DataFrame : Type := mkDataFrame {
  df_index : list nat;
  df_columns : list (string * list Cell);
}.

Record TextData : Type := mkTextData {
  td_index : list nat;
  td_text : list string;
  td_label : list Label;
  td_task_type : TaskType;
  td_multi_label : bool;
  td_metadata : DataFrame;
  td_properties : DataFrame;
}.

(** The tabular [Dataset] that target encoding returns. *)
Record Dataset : Type := mkDataset {
  ds_data : DataFrame;
  ds_label_col : list Label;
  ds_features : list string;
}.

Inductive Predicate : Type :=
  | NumRange (col : string) (lo hi : option Q)
  | CatSubset (col : string) (cats : list string).

Record Segment : Type := mkSegment {
  seg_predicates : list Predicate;
  seg_indices : list nat;
  seg_score : pyfloat;
}.
Definition seg_size (s : Segment) : nat := length (seg_indices s).

Definition Predictions : Type := list Label.
Definition Proba : Type := list (list Q).

(** The model of a context: [predict], and [predict_proba] when the
    attribute exists ([hasattr(context.model, 'predict_proba')]). *)
Record Model : Type := mkModel {
  predict : TextData -> Eff Predictions;
  predict_proba : option (TextData -> Eff Proba);
}.

(** Keyword arguments of [deepchecks.tabular.context._DummyModel]. *)
Record DummyModel : Type := mkDummyModel {
  dm_test : Dataset;
  dm_y_pred_test : Predictions;
  dm_y_proba_test : Proba;
  dm_validate_data_on_predict : bool;
}.

Definition Scorer : Type := DummyModel -> Dataset -> Eff pyfloat.

(** [deepchecks.nlp.Context]; [model] is a property and may raise. *)
Record Context : Type := mkContext {
  ctx_train : option TextData;
  ctx_test : option TextData;
  ctx_model : result Model;
  ctx_task_type : TaskType;
  ctx_model_classes : list Label;
  ctx_random_state : Seed;
  ctx_with_display : bool;
}.

Record SegmentRecord : Type := mkSegmentRecord {
  sr_description : list string;
  sr_size : nat;
  sr_score : pyfloat;
}.

Record CheckValue : Type := mkCheckValue {
  weak_segments_list : list SegmentRecord;
  avg_score : pyfloat;
}.

Record CheckResult : Type := mkCheckResult {
  value : CheckValue;
  display_msg : string;
  display_map : list string;
}.

(** ** The segment search engine *)

Module SegmentSearch.

Section Search.

(** The trained ensemble: every leaf of every shallow tree, as the predicates
    on the way to it and the positions of the rows that fall in it. *)
Variable leaves : DataFrame -> list Q -> list string -> list (list Predicate * list nat).
(** Similarity of two member-index sets, and the threshold above which two
    segments count as near-identical. *)
Variable similarity : list nat -> list nat -> Q.
Variable similarity_threshold : Q.

Definition scores_at (scores : list Q) (indices : list nat) : list Q :=
  omap (fun i => scores !! i) indices.

Definition mk_segment (scores : list Q) (leaf : list Predicate * list nat) : Segment :=
  {| seg_predicates := fst leaf;
     seg_indices := snd leaf;
     seg_score := mean (scores_at scores (snd leaf)) |}.

(** [size >= minimum_size_ratio * N] *)
Definition size_ok (ratio : Q) (N : nat) (s : Segment) : bool :=
  Qle_bool (ratio * inject_Z (Z.of_nat N)) (inject_Z (Z.of_nat (seg_size s))).

(** Ranking: larger weakness (global average minus segment score) first,
    that is lower segment score first; for equal weakness the larger segment
    first.  A segment without a score goes last. *)
Definition ranks_before (a b : Segment) : bool :=
  match seg_score a, seg_score b with
  | Fin x, Fin y =>
      if Qeq_bool x y then Nat.leb (seg_size b) (seg_size a) else Qle_bool x y
  | Fin _, NaN => true
  | NaN, Fin _ => false
  | NaN, NaN => Nat.leb (seg_size b) (seg_size a)
  end.

Fixpoint insert_ranked (s : Segment) (l : list Segment) : list Segment :=
  match l with
  | [] => [s]
  | x :: rest => if ranks_before s x then s :: l else x :: insert_ranked s rest
  end.

Definition rank (l : list Segment) : list Segment := foldr insert_ranked [] l.

Definition near_identical (a b : Segment) : bool :=
  negb (Qle_bool (similarity (seg_indices a) (seg_indices b)) similarity_threshold).

(** Walk the ranked list and keep a segment unless a kept (weaker or
    larger) one is near-identical to it. *)
Fixpoint dedup_from (kept : list Segment) (l : list Segment) : list Segment :=
  match l with
  | [] => []
  | s :: rest =>
      if existsb (fun k => near_identical k s) kept
      then dedup_from kept rest
      else s :: dedup_from (kept ++ [s]) rest
  end.

(** Modelled from the spec: [WeakSegmentAbstract._weak_segments_search] is
    not in the sources.  Candidates are the leaves of the ensemble; a leaf
    whose sample count is below the minimum size ratio is discarded; the rest
    is scored by the mean per-sample score over its indices, ranked by
    weakness with ties to the larger segment, and deduplicated. *)
Definition search (ratio : Q) (data : DataFrame) (scores : list Q)
    (feature_rank : list string) : list Segment :=
  let N := length (df_index data) in
  let candidates := map (mk_segment scores) (leaves data scores feature_rank) in
  dedup_from [] (rank (List.filter (size_ok ratio N) candidates)).

End Search.

End SegmentSearch.

(** ** The weak-segments check *)

Module WeakSegments.

(** Attributes set by [WeakSegmentsAbstractText.__init__]. *)
Record Check : Type := mkCheck {
  segment_by : string;
  columns : option (list string);
  ignore_columns : option (list string);
  n_top_features : option Z;
  segment_minimum_size_ratio : Q;
  n_samples : Z;
  n_to_show : Z;
  score_per_sample : option (list Q);
  alternative_scorer : option (list (string * Scorer));
  categorical_aggregation_threshold : Q;
}.

(** [__init__]: an empty scorer dictionary is stored as [None]. *)
Definition init (segment_by : string) (columns ignore_columns : option (list string))
    (n_top_features : option Z) (segment_minimum_size_ratio : Q)
    (alternative_scorer : option (list (string * Scorer)))
    (score_per_sample : option (list Q)) (n_samples : Z)
    (categorical_aggregation_threshold : Q) (n_to_show : Z) : Check :=
  {| segment_by := segment_by;
     columns := columns;
     ignore_columns := ignore_columns;
     n_top_features := n_top_features;
     segment_minimum_size_ratio := segment_minimum_size_ratio;
     n_samples := n_samples;
     n_to_show := n_to_show;
     score_per_sample := score_per_sample;
     alternative_scorer :=
       match alternative_scorer with
       | Some (_ :: _ as d) => Some d
       | _ => None
       end;
     categorical_aggregation_threshold := categorical_aggregation_threshold |}.

(** [PropertySegmentsPerformance.__init__] and
    [MetadataSegmentsPerformance.__init__] *)
Definition PropertySegmentsPerformance (properties ignore_properties : option (list string))
    (n_top_properties : option Z) (segment_minimum_size_ratio : Q)
    (alternative_scorer : option (list (string * Scorer)))
    (score_per_sample : option (list Q)) (n_samples : Z)
    (categorical_aggregation_threshold : Q) (n_to_show : Z) : Check :=
  init "properties" properties ignore_properties n_top_properties
    segment_minimum_size_ratio alternative_scorer score_per_sample n_samples
    categorical_aggregation_threshold n_to_show.

Definition MetadataSegmentsPerformance (columns ignore_columns : option (list string))
    (n_top_columns : option Z) (segment_minimum_size_ratio : Q)
    (alternative_scorer : option (list (string * Scorer)))
    (score_per_sample : option (list Q)) (n_samples : Z)
    (categorical_aggregation_threshold : Q) (n_to_show : Z) : Check :=
  init "metadata" columns ignore_columns n_top_columns
    segment_minimum_size_ratio alternative_scorer score_per_sample n_samples
    categorical_aggregation_threshold n_to_show.

(** The two checks with the defaults of their signatures, but for the
    scores and the sample count. *)
Definition property_segments (score_per_sample : option (list Q)) (n_samples : Z) : Check :=
  PropertySegmentsPerformance None None (Some 10) (5 # 100) None score_per_sample
    n_samples (5 # 100) 3.
Definition metadata_segments (score_per_sample : option (list Q)) (n_samples : Z) : Check :=
  MetadataSegmentsPerformance None None (Some 10) (5 # 100) None score_per_sample
    n_samples (5 # 100) 3.

(** Code of the repository that [run_logic] calls and that lives in other
    modules: the context's guards and accessors, [TextData.sample],
    [get_relevant_data_table], the methods inherited from
    [WeakSegmentAbstract], the per-sample metric and the scorer lookup.
    [run_logic] is verified for every behaviour of these. *)
Record Deps : Type := mkDeps {
  raise_if_token_classification_task : Context -> result unit;
  raise_if_multi_label_task : Context -> result unit;
  get_data_by_kind : Context -> DatasetKind -> result TextData;
  sample : TextData -> Z -> Seed -> Eff TextData;
  get_relevant_data_table :
    TextData -> string -> option (list string) -> option (list string) ->
    option Z -> Eff (DataFrame * list string);
  target_encode_categorical_features_fill_na :
    Check -> DataFrame -> list Label -> list string -> bool -> Eff Dataset;
  calculate_neg_cross_entropy_per_sample :
    list Label -> Proba -> list Label -> Eff (list Q);
  dummy_model_init : DummyModel -> Eff unit;
  get_single_scorer : Context -> option (list (string * Scorer)) -> Eff Scorer;
  weak_segments_search :
    Check -> DataFrame -> list Q -> list Label -> list string ->
    option DummyModel -> option Scorer -> Eff (list Segment);
  create_heatmap_display :
    Check -> DataFrame -> list Segment -> list Q -> pyfloat -> list Label ->
    option DummyModel -> option Scorer -> Eff (list string);
  format_weak_segments : Check -> list Segment -> list string -> Eff (list SegmentRecord);
}.

(** [arr[list(index)]] on an array: every position must exist. *)
Fixpoint getitem (arr : list Q) (index : list nat) : result (list Q) :=
  match index with
  | [] => Ok []
  | i :: rest =>
      match arr !! i with
      | None => Raise (PyError "IndexError" "index is out of bounds")
      | Some x =>
          match getitem arr rest with
          | Ok xs => Ok (x :: xs)
          | Raise e => Raise e
          end
      end
  end.

Definition msg_no_proba : string :=
  "Predicted probabilities not supplied. The weak segment checks relies" ++
  " on cross entropy error that requires predicted probabilities, " ++
  "rather than only predicted classes.".

Definition msg_task_not_supported (t : TaskType) : string :=
  "Weak segments performance check is not supported for " ++ TaskType_str t ++ ".".

Definition msg_no_segments (segment_by : string) : string :=
  "WeakSegmentsPerformance was unable to train an error model to find weak " ++
  "segments. Try increasing n_samples or supply more " ++ segment_by ++ ".".

Definition msg_display (segment_by : string) : string :=
  "Showcasing intersections of " ++ segment_by ++ " with weakest detected segments.<br> The full " ++
  "list of weak segments can be observed in the check result value. ".

(** Modelled from the spec: [_generate_check_result_value] of
    [WeakSegmentAbstract] is not in the sources.  The structured value is the
    ordered sequence of segment records, with predicates mapped back to the
    column domain by [format_weak_segments], plus the global average score. *)
Definition generate_check_result_value (D : Deps) (self : Check)
    (weak_segments : list Segment) (cat_features : list string)
    (avg : pyfloat) : Eff CheckValue :=
  fun g => match format_weak_segments D self weak_segments cat_features g with
           | (g', Ok recs) => (g', Ok {| weak_segments_list := recs; avg_score := avg |})
           | (g', Raise e) => (g', Raise e)
           end.

Section RunLogic.
Variable D : Deps.

(** What lines 53-65 leave in scope. *)
Record Prepared : Type := mkPrepared {
  text_data : TextData;
  features : DataFrame;
  cat_features : list string;
  encoded_dataset : Dataset;
}.

(** Lines 53-65: task guards, sampling, feature table, target encoding. *)
Definition prepare (self : Check) (context : Context) (dataset_kind : DatasetKind)
  : M Prepared :=
  lift (raise_if_token_classification_task D context);;
  lift (raise_if_multi_label_task D context);;
  text_data ← lift (get_data_by_kind D context dataset_kind);
  text_data ← call (EvSample (n_samples self) (ctx_random_state context))
                 (sample D text_data (n_samples self) (ctx_random_state context));
  '(features, cat_features) ←
     call EvGetRelevantDataTable
       (get_relevant_data_table D text_data (segment_by self) (columns self)
          (ignore_columns self) (n_top_features self));
  encoded_dataset ←
     call EvTargetEncode
       (target_encode_categorical_features_fill_na D self features
          (td_label text_data) cat_features true);
  mret {| text_data := text_data; features := features;
          cat_features := cat_features; encoded_dataset := encoded_dataset |}.

(** The scoring branch, lines 66-87: per-sample scores, the dummy model and
    scorer handed to the search, and the average score. *)
Definition score_branch (self : Check) (context : Context) (text_data : TextData)
    (features : DataFrame) (encoded_dataset : Dataset)
  : M (list Q * option DummyModel * option Scorer * pyfloat) :=
  match score_per_sample self with
  | Some given =>
      sps ← lift (getitem given (df_index features));
      mret (sps, None, None, round (mean sps) 3)
  | None =>
      model ← lift (ctx_model context);
      predictions ← call EvModelPredict (predict model text_data);
      '(sps, y_proba) ←
        match ctx_task_type context with
        | TEXT_CLASSIFICATION =>
            match predict_proba model with
            | None => raise (DeepchecksNotSupportedError msg_no_proba)
            | Some model_predict_proba =>
                y_proba ← call EvModelPredictProba (model_predict_proba text_data);
                sps ← call EvNegCrossEntropy
                        (calculate_neg_cross_entropy_per_sample D (td_label text_data)
                           y_proba (ctx_model_classes context));
                mret (sps, y_proba)
            end
        | t => raise (DeepchecksNotSupportedError (msg_task_not_supported t))
        end;
      let dummy_model :=
        {| dm_test := encoded_dataset; dm_y_pred_test := predictions;
           dm_y_proba_test := y_proba; dm_validate_data_on_predict := false |} in
      call EvDummyModel (dummy_model_init D dummy_model);;
      scorer ← call EvGetSingleScorer (get_single_scorer D context (alternative_scorer self));
      v ← call EvScorerCall (scorer dummy_model encoded_dataset);
      mret (sps, Some dummy_model, Some scorer, round v 3)
  end.

(** Lines 95-111: an empty search result is an error; otherwise the display
    and the result value are built. *)
Definition finish (self : Check) (context : Context) (encoded_dataset : Dataset)
    (cat_features : list string) (sps : list Q) (dummy_model : option DummyModel)
    (scorer : option Scorer) (avg : pyfloat) (weak_segments : list Segment)
  : M CheckResult :=
  if decide (length weak_segments = 0%nat)
  then raise (DeepchecksProcessError (msg_no_segments (segment_by self)))
  else
    display ←
      (if ctx_with_display context
       then call EvHeatmapDisplay
              (create_heatmap_display D self (ds_data encoded_dataset) weak_segments
                 sps avg (ds_label_col encoded_dataset) dummy_model scorer)
       else mret []);
    check_result_value ←
      call EvGenerateValue
        (generate_check_result_value D self weak_segments cat_features avg);
    mret {| value := check_result_value;
            display_msg := msg_display (segment_by self);
            display_map := display |}.

(** Lines 89-93: the call into the search engine. *)
Definition search_segments (self : Check) (encoded_dataset : Dataset) (sps : list Q)
    (dummy_model : option DummyModel) (scorer : option Scorer) : M (list Segment) :=
  call (EvWeakSegmentsSearch sps (bool_decide (is_Some dummy_model)))
    (weak_segments_search D self (ds_data encoded_dataset) sps
       (ds_label_col encoded_dataset) (ds_features encoded_dataset)
       dummy_model scorer).

Definition run_logic (self : Check) (context : Context) (dataset_kind : DatasetKind)
  : M CheckResult :=
  p ← prepare self context dataset_kind;
  '(sps, dummy_model, scorer, avg) ←
     score_branch self context (text_data p) (features p) (encoded_dataset p);
  weak_segments ← search_segments self (encoded_dataset p) sps dummy_model scorer;
  finish self context (encoded_dataset p) (cat_features p) sps dummy_model scorer avg
    weak_segments.

End RunLogic.

(** *** Vocabulary for statements about runs *)

(** Events of lines 53-65, of lines 95-111, and the search call. *)
Definition prepare_event (ev : Event) : Prop :=
  match ev with
  | EvSample _ _ | EvGetRelevantDataTable | EvTargetEncode => True
  | _ => False
  end.

Definition finish_event (ev : Event) : Prop :=
  match ev with
  | EvHeatmapDisplay | EvGenerateValue => True
  | _ => False
  end.


(** Events of the scoring branch on the model path. *)
Definition score_event (ev : Event) : Prop :=
  match ev with
  | EvModelPredict | EvModelPredictProba | EvNegCrossEntropy | EvDummyModel
  | EvGetSingleScorer | EvScorerCall => True
  | _ => False
  end.



(** The sampling event of a run carries the check's sample count and the
    context's seed. *)
Definition seeded_sample (self : Check) (context : Context) (ev : Event) : Prop :=
  match ev with
  | EvSample n s => n = n_samples self /\ s = ctx_random_state context
  | _ => True
  end.

End WeakSegments.

(** ** The conflicting-labels check *)

Module ConflictingLabels.

(** Attributes set by [ConflictingLabels.__init__]. *)
Record Check : Type := mkCheck {
  ignore_case : bool;
  remove_punctuation : bool;
  normalize_unicode : bool;
  remove_stopwords : bool;
  ignore_whitespace : bool;
  n_to_show : Z;
  n_samples : Z;
  random_state : Seed;
  max_text_length_for_display : Z;
}.

Definition default : Check :=
  {| ignore_case := true; remove_punctuation := true; normalize_unicode := true;
     remove_stopwords := true; ignore_whitespace := false; n_to_show := 5;
     n_samples := 10000000; random_state := 42; max_text_length_for_display := 30 |}.

(** One row of the frame built at lines 106-111. *)
Record Row : Type := mkRow {
  row_hash : Z;
  row_sample_id : nat;
  row_label : Label;
  row_text : string;
}.

(** A row of [result_df]: indexed by duplicate number, sample id and label. *)
Record ResultRow : Type := mkResultRow {
  rr_duplicate : Z;
  rr_sample_id : nat;
  rr_label : Label;
  rr_text : string;
}.

Record Value : Type := mkValue {
  percent_of_conflicting_samples : Q;
  conflicting_samples : list ResultRow;
}.

Record Result : Type := mkResult {
  result_value : Value;
  result_display : option (string * string * list string);
}.

(** Code called by [run_logic] that lives in other modules; [display_table]
    stands for the pandas grouping and formatting of lines 137-156. *)
Record Deps : Type := mkDeps {
  get_data_by_kind : Context -> DatasetKind -> result TextData;
  sample : TextData -> Z -> Seed -> Eff TextData;
  normalize_samples : list string -> Check -> Eff (list string);
  hash_samples : list string -> Eff (list Z);
  to_ordional_enumeration : list Z -> Z -> Z;
  display_table : Check -> list Row -> Eff (list string);
}.

(** [tuple(it)] *)
Definition tuple (l : Label) : result Label :=
  match l with
  | LSeq items => Ok (LSeq items)
  | LStr s => Ok (LSeq (map (fun c => AStr (String c EmptyString)) (String.list_ascii_of_string s)))
  | LInt _ => Raise (PyError "TypeError" "'int' object is not iterable")
  end.

Fixpoint tuples (ls : list Label) : result (list Label) :=
  match ls with
  | [] => Ok []
  | l :: rest =>
      match tuple l with
      | Raise e => Raise e
      | Ok t => match tuples rest with
                | Raise e => Raise e
                | Ok ts => Ok (t :: ts)
                end
      end
  end.

(** [pd.DataFrame({...})]: the four columns must have one length. *)
Fixpoint zip_rows (hashes : list Z) (ids : list nat) (labels : list Label)
    (texts : list string) : result (list Row) :=
  match hashes, ids, labels, texts with
  | [], [], [], [] => Ok []
  | h :: hs, i :: is_, l :: ls, t :: ts =>
      match zip_rows hs is_ ls ts with
      | Ok rows => Ok (mkRow h i l t :: rows)
      | Raise e => Raise e
      end
  | _, _, _, _ => Raise (PyError "ValueError" "All arrays must be of the same length")
  end.

(** [len(set(x.to_list()))] over the labels of the rows of one hash. *)
Definition n_of_labels (df : list Row) (h : Z) : nat :=
  length (remove_dups (map row_label (List.filter (fun r => bool_decide (row_hash r = h)) df))).

Definition is_ambiguous (df : list Row) (r : Row) : bool :=
  bool_decide (1 < n_of_labels df (row_hash r))%nat.

(** [display_table.iloc[slice(0, n)]] *)
Definition iloc_slice {A} (n : Z) (l : list A) : list A :=
  if decide (0 <= n) then take (Z.to_nat n) l
  else take (length l - Z.to_nat (- n)) l.

Section RunLogic.
Variable D : Deps.

Definition run_logic (self : Check) (context : Context) (dataset_kind : DatasetKind)
  : M Result :=
  dataset ← lift (get_data_by_kind D context dataset_kind);
  dataset ← call (EvSample (n_samples self) (random_state self))
               (sample D dataset (n_samples self) (random_state self));
  let samples := td_text dataset in
  let n_of_samples := length samples in
  if decide (n_of_samples = 0%nat)
  then raise (DeepchecksValueError "Dataset cannot be empty")
  else
    normalized ← call EvNormalizeSamples (normalize_samples D (td_text dataset) self);
    samples_hashes ← call EvHashSamples (hash_samples D normalized);
    labels ←
      (if bool_decide (td_task_type dataset = TOKEN_CLASSIFICATION) || td_multi_label dataset
       then lift (tuples (td_label dataset))
       else if bool_decide (td_task_type dataset = TEXT_CLASSIFICATION)
       then mret (td_label dataset)
       else raise (DeepchecksValueError
                     ("Unknow task type - " ++ TaskType_str (td_task_type dataset)))
       : M (list Label));
    df ← lift (zip_rows samples_hashes (td_index dataset) labels (td_text dataset));
    ambiguous_samples ← call EvGroupBy (fun g : Ambient => (g, Ok (List.filter (is_ambiguous df) df)));
    let num_of_ambiguous_samples := length ambiguous_samples in
    let percent_of_ambiguous_samples :=
      (inject_Z (Z.of_nat num_of_ambiguous_samples) / inject_Z (Z.of_nat n_of_samples))%Q in
    let duplicates_enumeration :=
      to_ordional_enumeration D (map row_hash ambiguous_samples) in
    let result_df :=
      map (fun r => mkResultRow (duplicates_enumeration (row_hash r)) (row_sample_id r)
                      (row_label r) (row_text r)) ambiguous_samples in
    let value :=
      {| percent_of_conflicting_samples := percent_of_ambiguous_samples;
         conflicting_samples := result_df |} in
    if negb (ctx_with_display context)
    then mret {| result_value := value; result_display := None |}
    else
      table ← call EvDisplayTable (display_table D self ambiguous_samples);
      let table_description :=
        "Each row in the table shows an example of a data sample " ++
        "and the its observed conflicting labels as found in the dataset." in
      let table_note :=
        if decide (n_to_show self <= Z.of_nat (length table))
        then "Showing top " ++ pretty (n_to_show self) ++ " of " ++ pretty (length table)
        else "" in
      mret {| result_value := value;
              result_display :=
                Some (table_description, table_note, iloc_slice (n_to_show self) table) |}.

End RunLogic.

(** The sampling event of a run carries the check's own sample count and seed. *)
Definition seeded_sample (self : Check) (ev : Event) : Prop :=
  match ev with
  | EvSample n s => n = n_samples self /\ s = random_state self
  | _ => True
  end.

End ConflictingLabels.

(** ** The recommender context's model wrapper *)

Module RecContext.

(** A row label of a frame. *)
Inductive IxLabel : Type :=
  | IInt (z : Z)
  | IStr (s : string).

#[global] Instance IxLabel_eq_dec : EqDecision IxLabel.
Proof. solve_decision. Defined.

(** [f'{x}'] *)
Definition str (x : IxLabel) : string :=
  match x with
  | IInt z => pretty z
  | IStr s => s
  end.

Record Frame : Type := mkFrame {
  index : list IxLabel;
  cols : list (string * list Cell);
}.

(** The frames are Python objects: a dataset holds the address of its frame,
    and two datasets (or one dataset passed twice) may hold the same one. *)
Abbreviation Heap := (gmap nat Frame).

Record RecDataset : Type := mkRecDataset {
  data : nat;
  features : list string;
}.

Definition get_frame (h : Heap) (addr : nat) : Frame :=
  default (mkFrame [] []) (h !! addr).

(** [dataset.data.index = new_index] *)
Definition set_index (h : Heap) (addr : nat) (new_index : list IxLabel) : Heap :=
  alter (fun f => {| index := new_index; cols := cols f |}) addr h.

(** [dataset.features_columns]: a new frame, the feature columns only. *)
Definition features_columns (h : Heap) (ds : RecDataset) : Frame :=
  let f := get_frame h (data ds) in
  {| index := index f;
     cols := List.filter (fun c => bool_decide (fst c ∈ features ds)) (cols f) |}.

(** [pd.Series(values, index=index)] *)
Definition Series : Type := list (IxLabel * Label).
Definition new_series (values : list Label) (ix : list IxLabel) : result Series :=
  if decide (length values = length ix)
  then Ok (zip ix values)
  else Raise (PyError "ValueError" "Length of values does not match length of index").

Record DummyModel : Type := mkDummyModel {
  predictions : option Series;
  feature_df_list : list Frame;
  validate_data_on_predict : bool;
  (** whether the instance got a [predict] attribute *)
  has_predict : bool;
}.

(** The double-quote character. *)
Definition dq : string := String (Ascii.ascii_of_nat 34) EmptyString.

Definition msg_common_index : string :=
  "train and test datasets have common index - adding " ++
  dq ++ "train" ++ dq ++ "/" ++ dq ++ "test" ++ dq ++
  " prefixes. To avoid that provide datasets with no common indexes " ++
  "or pass the model object instead of the predictions.".

(** [set(a) & set(b)] is not empty *)
Definition common_index (a b : list IxLabel) : bool :=
  existsb (fun x => bool_decide (x ∈ b)) a.

Record State : Type := mkState {
  heap : Heap;
  log : list string;
}.

(** Lines 61-68: the index rewrite. *)
Definition prefix_common_indexes (train test : option RecDataset) (st : State) : State :=
  match train, test with
  | Some train, Some test =>
      if common_index (index (get_frame (heap st) (data train)))
                      (index (get_frame (heap st) (data test)))
      then
        let h1 := set_index (heap st) (data train)
                    (map (fun x => IStr ("train-" ++ str x))
                         (index (get_frame (heap st) (data train)))) in
        let h2 := set_index h1 (data test)
                    (map (fun x => IStr ("test-" ++ str x))
                         (index (get_frame h1 (data test)))) in
        {| heap := h2; log := (log st ++ [msg_common_index])%list |}
      else st
  | _, _ => st
  end.

(** Lines 70-79: one round of the loop over [zip([train, test], [y_pred_train, y_pred_test])]. *)
Definition collect (h : Heap) (dataset : option RecDataset) (y_pred : option (list Label))
    (acc : list Frame * list Series) : result (list Frame * list Series) :=
  match dataset with
  | None => Ok acc
  | Some ds =>
      let dfs := (fst acc ++ [features_columns h ds])%list in
      match y_pred with
      | None => Ok (dfs, snd acc)
      | Some y =>
          match new_series y (index (get_frame h (data ds))) with
          | Ok ser => Ok (dfs, (snd acc ++ [ser])%list)
          | Raise e => Raise e
          end
      end
  end.

(** [_DummyModel.__init__] *)
Definition init (train test : option RecDataset)
    (y_pred_train y_pred_test : option (list Label))
    (validate_data_on_predict : bool) (st : State) : State * result DummyModel :=
  let st := prefix_common_indexes train test st in
  match collect (heap st) train y_pred_train ([], []) with
  | Raise e => (st, Raise e)
  | Ok acc =>
      match collect (heap st) test y_pred_test acc with
      | Raise e => (st, Raise e)
      | Ok (feature_df_list, predictions) =>
          let predictions :=
            match predictions with
            | [] => None
            | _ => Some (concat predictions)
            end in
          (st, Ok {| predictions := predictions;
                     feature_df_list := feature_df_list;
                     validate_data_on_predict := validate_data_on_predict;
                     has_predict := bool_decide (predictions <> None) |})
      end
  end.

Definition train_prefixed (x : IxLabel) : IxLabel := IStr ("train-" ++ str x).
Definition test_prefixed (x : IxLabel) : IxLabel := IStr ("test-" ++ str x).


End RecContext.

(** ** Tabular base checks: [SingleDatasetCheck.run] *)

Module BaseChecks.

(** [deepchecks.tabular.utils.task_type.TaskType], as far as [run] looks at it. *)
Inductive LabelType : Type :=
  | REGRESSION
  | BINARY
  | MULTICLASS
  | RECOMMENDETION.

#[global] Instance LabelType_eq_dec : EqDecision LabelType.
Proof. solve_decision. Defined.

Inductive WarningCategory : Type := DeprecationWarning | UserWarning.

Record Warning : Type := mkWarning {
  w_message : string;
  w_category : WarningCategory;
}.

Definition Array : Type := list Q.

Inductive ContextClass : Type :=
  | RecContextClass
  | TabularContextClass
  | CustomContextClass (name : string).

Section Run.

(** The datasets, models and results that [run] only passes along. *)
Context {DatasetT ItemDatasetT InteractionDatasetT ModelT ContextT ResultT : Type}.
Variable label_type : DatasetT -> LabelType.

Record Args : Type := mkArgs {
  dataset : DatasetT;
  model : option ModelT;
  item_dataset : option ItemDatasetT;
  interaction_dataset : option InteractionDatasetT;
  feature_importance : option (list (string * Q));
  feature_importance_force_permutation : bool;
  feature_importance_timeout : Z;
  with_display : bool;
  y_pred : option Array;
  y_proba : option Array;
  y_pred_train : option Array;
  y_pred_test : option Array;
  y_proba_train : option Array;
  y_proba_test : option Array;
  model_classes : option (list Label);
}.

(** The keyword arguments the context class is called with. *)
Record ContextKwargs : Type := mkContextKwargs {
  k_class : ContextClass;
  k_train : DatasetT;
  k_model : option ModelT;
  k_item_dataset : option ItemDatasetT;
  k_interaction_dataset : option InteractionDatasetT;
  k_feature_importance : option (list (string * Q));
  k_feature_importance_force_permutation : bool;
  k_feature_importance_timeout : Z;
  k_with_display : bool;
  k_y_pred_train : option Array;
  k_y_proba_train : option Array;
  k_model_classes : option (list Label);
}.

(** Warnings issued so far are threaded through; an exception keeps them. *)
Definition W (A : Type) : Type := list Warning -> list Warning * result A.

Definition w_ret {A} (a : A) : W A := fun ws => (ws, Ok a).
Definition w_bind {A B} (m : W A) (k : A -> W B) : W B :=
  fun ws => match m ws with
            | (ws', Ok a) => k a ws'
            | (ws', Raise e) => (ws', Raise e)
            end.
Definition w_raise {A} (e : Error) : W A := fun ws => (ws, Raise e).
Definition warn (msg : string) (cat : WarningCategory) : W unit :=
  fun ws => ((ws ++ [mkWarning msg cat])%list, Ok tt).
Definition when (b : bool) (m : W unit) : W unit := if b then m else w_ret tt.

#[local] Instance W_ret : MRet W := @w_ret.
#[local] Instance W_bind : MBind W := fun A B k m => w_bind m k.

(** Lines 83-106: argument checks, deprecation warnings, and the choice
    between the deprecated and the current keyword. *)
Definition check_args (a : Args) : W (option Array * option Array) :=
  when (bool_decide (label_type (dataset a) <> RECOMMENDETION) && bool_decide (is_Some (item_dataset a)))
    (w_raise (DeepchecksNotSupportedError "item_dataset is not supported for tabular datasets."));;
  when (bool_decide (label_type (dataset a) = RECOMMENDETION) && bool_decide (is_Some (model_classes a)))
    (w_raise (DeepchecksNotSupportedError "model_classes is not supported for recommendation datasets."));;
  when (bool_decide (is_Some (y_pred_train a)))
    (warn "y_pred_train is deprecated, please use y_pred instead." DeprecationWarning);;
  when (bool_decide (is_Some (y_pred_train a)) && bool_decide (is_Some (y_pred a)))
    (w_raise (DeepchecksValueError ("Cannot accept both y_pred_train and y_pred, please pass the data only" ++
                                    " to y_pred.")));;
  when (bool_decide (is_Some (y_proba_train a)))
    (warn "y_proba_train is deprecated, please use y_proba instead." DeprecationWarning);;
  when (bool_decide (is_Some (y_pred_train a)) && bool_decide (is_Some (y_pred a)))
    (w_raise (DeepchecksValueError ("Cannot accept both y_proba_train and y_proba, please pass the data only" ++
                                    " to y_proba.")));;
  when (bool_decide (is_Some (y_pred_test a)))
    (warn "y_pred_test is deprecated and ignored." DeprecationWarning);;
  when (bool_decide (is_Some (y_proba_test a)))
    (warn "y_proba_test is deprecated and ignored." DeprecationWarning);;
  let y_pred_train := if y_pred_train a is Some v then Some v else y_pred a in
  let y_proba_train := if y_proba_train a is Some v then Some v else y_proba a in
  mret (y_pred_train, y_proba_train).

(** Lines 108-132: which context class is called, and with what. *)
Definition context_kwargs (context_type : option ContextClass) (a : Args)
    (y_pred_train y_proba_train : option Array) : ContextKwargs :=
  if decide (label_type (dataset a) = RECOMMENDETION)
  then {| k_class := RecContextClass;
          k_train := dataset a;
          k_model := None;
          k_item_dataset := item_dataset a;
          k_interaction_dataset := interaction_dataset a;
          k_feature_importance := feature_importance a;
          k_feature_importance_force_permutation := feature_importance_force_permutation a;
          k_feature_importance_timeout := feature_importance_timeout a;
          k_with_display := with_display a;
          k_y_pred_train := y_pred_train;
          k_y_proba_train := None;
          k_model_classes := None |}
  else {| k_class := default TabularContextClass context_type;
          k_train := dataset a;
          k_model := model a;
          k_item_dataset := None;
          k_interaction_dataset := None;
          k_feature_importance := feature_importance a;
          k_feature_importance_force_permutation := feature_importance_force_permutation a;
          k_feature_importance_timeout := feature_importance_timeout a;
          k_with_display := with_display a;
          k_y_pred_train := y_pred_train;
          k_y_proba_train := y_proba_train;
          k_model_classes := model_classes a |}.

Definition deprecation (msg : string) : Warning := mkWarning msg DeprecationWarning.

(** The warnings for the two ignored keywords, lines 100-103. *)
Definition ignored_warnings (a : Args) : list Warning :=
  ((if y_pred_test a is Some _ then [deprecation "y_pred_test is deprecated and ignored."] else []) ++
   (if y_proba_test a is Some _ then [deprecation "y_proba_test is deprecated and ignored."] else []))%list.

(** The context constructor, the check's [run_logic] and
    [context.finalize_check_result]. *)
Variable new_context : ContextKwargs -> W ContextT.
Variable run_logic : ContextT -> DatasetKind -> W ResultT.
Variable finalize_check_result : ContextT -> ResultT -> DatasetKind -> W unit.

(** [SingleDatasetCheck.run]; [context_type] is the class attribute
    [self.context_type], [None] until a run sets it. *)
Definition run (context_type : option ContextClass) (a : Args) : W ResultT :=
  '(y_pred_train, y_proba_train) ← check_args a;
  context ← new_context (context_kwargs context_type a y_pred_train y_proba_train);
  result ← run_logic context TRAIN;
  finalize_check_result context result TRAIN;;
  mret result.

End Run.

End BaseChecks.

(** ** Concrete collaborators and data for running the embedding

    Small stand-ins for the code outside the embedded files, used to
    evaluate the embedded functions on examples.  The statements that hold
    for every collaborator never mention them. *)

Module Fixtures.

Definition head_frame (n : nat) (f : DataFrame) : DataFrame :=
  {| df_index := take n (df_index f);
     df_columns := map (fun c => (fst c, take n (snd c))) (df_columns f) |}.

Definition head_rows (n : nat) (td : TextData) : TextData :=
  {| td_index := take n (td_index td);
     td_text := take n (td_text td);
     td_label := take n (td_label td);
     td_task_type := td_task_type td;
     td_multi_label := td_multi_label td;
     td_metadata := head_frame n (td_metadata td);
     td_properties := head_frame n (td_properties td) |}.

(** Sampling that seeds the ambient generator with [random_state] and keeps
    the first [min(n_samples, len)] rows. *)
Definition sample_head (td : TextData) (n_samples : Z) (random_state : Seed) : Eff TextData :=
  fun _ => (random_state, Ok (head_rows (Z.to_nat n_samples) td)).

Definition get_data_by_kind (context : Context) (kind : DatasetKind) : result TextData :=
  match (match kind with TRAIN => ctx_train context | TEST => ctx_test context end) with
  | Some td => Ok td
  | None => Raise (DeepchecksNotSupportedError "Check is irrelevant for Datasets without the dataset")
  end.

Definition raise_if_token_classification_task (context : Context) : result unit :=
  if decide (ctx_task_type context = TOKEN_CLASSIFICATION)
  then Raise (DeepchecksNotSupportedError "Check is not supported for token classification tasks")
  else Ok tt.

Definition raise_if_multi_label_task (context : Context) : result unit :=
  match ctx_train context with
  | Some td =>
      if td_multi_label td
      then Raise (DeepchecksNotSupportedError "Check is not supported for multilabel tasks")
      else Ok tt
  | None => Ok tt
  end.

Definition is_cat (c : Cell) : bool := match c with CCat _ => true | _ => false end.

Definition get_relevant_data_table (td : TextData) (data_type : string)
    (columns ignore_columns : option (list string)) (n_top_features : option Z)
  : Eff (DataFrame * list string) :=
  fun g =>
    let pick f := (g, Ok (f, map fst (List.filter (fun c => existsb is_cat (snd c)) (df_columns f)))) in
    if decide (data_type = "metadata") then pick (td_metadata td)
    else if decide (data_type = "properties") then pick (td_properties td)
    else (g, Raise (DeepchecksProcessError "Unknown segment_by value")).

Definition encode_cell (c : Cell) : Cell :=
  match c with
  | CNum q => CNum q
  | CCat s => CNum (inject_Z (Z.of_nat (String.length s)))
  | CNa => CNum (-1)
  end.

Definition target_encode (features : DataFrame) (label : list Label)
    (cat_features : list string) (is_cat_label : bool) : Eff Dataset :=
  fun g => (g, Ok {| ds_data := {| df_index := df_index features;
                                  df_columns := map (fun c => (fst c, map encode_cell (snd c)))
                                                    (df_columns features) |};
                     ds_label_col := label;
                     ds_features := map fst (df_columns features) |}).

(** The natural logarithm to six decimals at the probabilities of the
    examples: ln(1/2) and ln(1/4); 0 elsewhere. *)
Definition ln6 (p : Q) : Q :=
  if Qeq_bool p (1 # 2) then (-693147 # 1000000)
  else if Qeq_bool p (1 # 4) then (-1386294 # 1000000)
  else 0.

Fixpoint position (l : Label) (classes : list Label) : nat :=
  match classes with
  | [] => 0
  | c :: rest => if decide (c = l) then 0 else S (position l rest)
  end.

(** The logarithm of the probability predicted for the true class. *)
Definition neg_cross_entropy (labels : list Label) (probas : Proba) (classes : list Label)
  : Eff (list Q) :=
  fun g => (g, Ok (map (fun lp => ln6 (default 0%Q (snd lp !! position (fst lp) classes)))
                       (zip labels probas))).

(** Share of predictions equal to the label. *)
Definition accuracy : Scorer :=
  fun dummy_model dataset g =>
    (g, Ok (mean (map (fun pl => if decide (fst pl = snd pl) then 1%Q else 0%Q)
                      (zip (dm_y_pred_test dummy_model) (ds_label_col dataset))))).

Definition get_single_scorer (context : Context) (alternative : option (list (string * Scorer)))
  : Eff Scorer :=
  fun g => match alternative with
           | Some ((_, scorer) :: _) => (g, Ok scorer)
           | _ => (g, Ok accuracy)
           end.

Definition num_of (c : Cell) : Q := match c with CNum q => q | _ => 0%Q end.

Definition positions_where (f : Cell -> bool) (cells : list Cell) : list nat :=
  map fst (List.filter (fun ic => f (snd ic)) (zip (seq 0 (length cells)) cells)).

(** An ensemble of one stump per feature, split at 5; a leaf holds at least
    one row. *)
Definition stump_leaves (data : DataFrame) (scores : list Q) (feature_rank : list string)
  : list (list Predicate * list nat) :=
  List.filter (fun leaf => negb (bool_decide (snd leaf = [])))
    (flat_map (fun c =>
                 [([NumRange (fst c) None (Some 5%Q)],
                   positions_where (fun x => Qle_bool (num_of x) 5) (snd c));
                  ([NumRange (fst c) (Some 5%Q) None],
                   positions_where (fun x => negb (Qle_bool (num_of x) 5)) (snd c))])
              (List.filter (fun c => bool_decide (fst c ∈ feature_rank)) (df_columns data))).

(** Shared members over all members. *)
Definition jaccard (a b : list nat) : Q :=
  let shared := length (List.filter (fun x => bool_decide (x ∈ b)) a) in
  let all := length (remove_dups (a ++ b)) in
  if decide (all = 0%nat) then 0%Q
  else (inject_Z (Z.of_nat shared) / inject_Z (Z.of_nat all))%Q.

Definition weak_segments_search (self : WeakSegments.Check) (data : DataFrame)
    (scores : list Q) (label_col : list Label) (feature_rank : list string)
    (dummy_model : option DummyModel) (scorer : option Scorer) : Eff (list Segment) :=
  fun g => (g, Ok (SegmentSearch.search stump_leaves jaccard (1 # 2)
                     (WeakSegments.segment_minimum_size_ratio self) data scores feature_rank)).

Definition predicate_str (p : Predicate) : string :=
  match p with
  | NumRange col _ _ => col
  | CatSubset col _ => col
  end.

Definition format_weak_segments (self : WeakSegments.Check) (segments : list Segment)
    (cat_features : list string) : Eff (list SegmentRecord) :=
  fun g => (g, Ok (map (fun s => {| sr_description := map predicate_str (seg_predicates s);
                                   sr_size := seg_size s;
                                   sr_score := seg_score s |}) segments)).

Definition deps : WeakSegments.Deps :=
  {| WeakSegments.raise_if_token_classification_task := raise_if_token_classification_task;
     WeakSegments.raise_if_multi_label_task := raise_if_multi_label_task;
     WeakSegments.get_data_by_kind := get_data_by_kind;
     WeakSegments.sample := sample_head;
     WeakSegments.get_relevant_data_table := get_relevant_data_table;
     WeakSegments.target_encode_categorical_features_fill_na := fun _ => target_encode;
     WeakSegments.calculate_neg_cross_entropy_per_sample := neg_cross_entropy;
     WeakSegments.dummy_model_init := fun _ g => (g, Ok tt);
     WeakSegments.get_single_scorer := get_single_scorer;
     WeakSegments.weak_segments_search := weak_segments_search;
     WeakSegments.create_heatmap_display := fun _ _ _ _ _ _ _ _ g => (g, Ok ["heatmap"]);
     WeakSegments.format_weak_segments := format_weak_segments |}.

(** Four reviews with two metadata columns. *)
Definition reviews : TextData :=
  {| td_index := [0; 1; 2; 3]%nat;
     td_text := ["good film"; "bad film"; "fine"; "dull"];
     td_label := [LInt 1; LInt 0; LInt 1; LInt 0];
     td_task_type := TEXT_CLASSIFICATION;
     td_multi_label := false;
     td_metadata := {| df_index := [0; 1; 2; 3]%nat;
                       df_columns := [("length", [CNum 9; CNum 8; CNum 4; CNum 4]);
                                      ("stars", [CNum 5; CNum 1; CNum 4; CNum 2])] |};
     td_properties := {| df_index := [0; 1; 2; 3]%nat;
                         df_columns := [("words", [CNum 2; CNum 2; CNum 1; CNum 1])] |} |}.

(** A model with static predictions, all correct, and even probabilities. *)
Definition coin_model (with_proba : bool) : Model :=
  {| predict := fun td g => (g, Ok (td_label td));
     predict_proba :=
       if with_proba
       then Some (fun td g => (g, Ok (map (fun _ => [1 # 2; 1 # 2]%Q) (td_label td))))
       else None |}.

Definition context_of (td : TextData) (m : Model) (task : TaskType) (display : bool) : Context :=
  {| ctx_train := Some td;
     ctx_test := None;
     ctx_model := Ok m;
     ctx_task_type := task;
     ctx_model_classes := [LInt 0; LInt 1];
     ctx_random_state := 42;
     ctx_with_display := display |}.

Definition w0 : World := {| ambient := 0; trace := [] |}.

(** The metadata check run on caller-supplied scores, on the model, and on
    a sample of zero rows. *)
Definition given_scores : list Q := [-1 # 10; -2 # 1; -3 # 10; -1 # 1]%Q.
Definition check_given : WeakSegments.Check :=
  WeakSegments.metadata_segments (Some given_scores) 3.
Definition check_model : WeakSegments.Check :=
  WeakSegments.metadata_segments None 10.

Definition context_with_proba : Context :=
  context_of reviews (coin_model true) TEXT_CLASSIFICATION false.
Definition context_without_proba : Context :=
  context_of reviews (coin_model false) TEXT_CLASSIFICATION false.
Definition context_other_task : Context :=
  context_of reviews (coin_model true) OTHER false.

(** The same collaborators with a search engine that finds nothing. *)
Definition deps_finding_nothing : WeakSegments.Deps :=
  {| WeakSegments.raise_if_token_classification_task := raise_if_token_classification_task;
     WeakSegments.raise_if_multi_label_task := raise_if_multi_label_task;
     WeakSegments.get_data_by_kind := get_data_by_kind;
     WeakSegments.sample := sample_head;
     WeakSegments.get_relevant_data_table := get_relevant_data_table;
     WeakSegments.target_encode_categorical_features_fill_na := fun _ => target_encode;
     WeakSegments.calculate_neg_cross_entropy_per_sample := neg_cross_entropy;
     WeakSegments.dummy_model_init := fun _ g => (g, Ok tt);
     WeakSegments.get_single_scorer := get_single_scorer;
     WeakSegments.weak_segments_search := fun _ _ _ _ _ _ _ g => (g, Ok []);
     WeakSegments.create_heatmap_display := fun _ _ _ _ _ _ _ _ g => (g, Ok ["heatmap"]);
     WeakSegments.format_weak_segments := format_weak_segments |}.

(** Collaborators of the conflicting-labels check: texts are hashed by
    their length, duplicates are numbered by first appearance. *)
Fixpoint first_position (h : Z) (l : list Z) : Z :=
  match l with
  | [] => 0
  | x :: rest => if decide (x = h) then 0 else 1 + first_position h rest
  end.


Definition cl_deps : ConflictingLabels.Deps :=
  {| ConflictingLabels.get_data_by_kind := get_data_by_kind;
     ConflictingLabels.sample := sample_head;
     ConflictingLabels.normalize_samples := fun texts _ g => (g, Ok texts);
     ConflictingLabels.hash_samples :=
       fun texts g => (g, Ok (map (fun t => Z.of_nat (String.length t)) texts));
     ConflictingLabels.to_ordional_enumeration :=
       fun hashes h => first_position h (remove_dups hashes);
     ConflictingLabels.display_table :=
       fun _ rows g => (g, Ok (map ConflictingLabels.row_text rows)) |}.

(** Two recommender datasets whose frames share the row label 1, and two
    that share none. *)
Definition frame_a : RecContext.Frame :=
  RecContext.mkFrame [RecContext.IInt 0; RecContext.IInt 1] [("clicks", [CNum 3; CNum 5])].
Definition frame_b : RecContext.Frame :=
  RecContext.mkFrame [RecContext.IInt 1; RecContext.IInt 2] [("clicks", [CNum 7; CNum 9])].
Definition frame_c : RecContext.Frame :=
  RecContext.mkFrame [RecContext.IInt 5; RecContext.IInt 6] [("clicks", [CNum 7; CNum 9])].

Definition heap_overlapping : gmap nat RecContext.Frame :=
  {[ 0%nat := frame_a; 1%nat := frame_b ]}.
Definition heap_disjoint : gmap nat RecContext.Frame :=
  {[ 0%nat := frame_a; 1%nat := frame_c ]}.

Definition rec_train : RecContext.RecDataset := RecContext.mkRecDataset 0 ["clicks"].
Definition rec_test : RecContext.RecDataset := RecContext.mkRecDataset 1 ["clicks"].

(** A call of [SingleDatasetCheck.run] on a tabular dataset with both
    [y_proba_train] and [y_proba]; the dataset is its label type, the context
    is the keyword arguments it was built from. *)
Definition run_args_both_probas
  : @BaseChecks.Args BaseChecks.LabelType unit unit unit :=
  {| BaseChecks.dataset := BaseChecks.BINARY;
     BaseChecks.model := None;
     BaseChecks.item_dataset := None;
     BaseChecks.interaction_dataset := None;
     BaseChecks.feature_importance := None;
     BaseChecks.feature_importance_force_permutation := false;
     BaseChecks.feature_importance_timeout := 120;
     BaseChecks.with_display := true;
     BaseChecks.y_pred := None;
     BaseChecks.y_proba := Some [1 # 2; 1 # 2]%Q;
     BaseChecks.y_pred_train := None;
     BaseChecks.y_pred_test := None;
     BaseChecks.y_proba_train := Some [1 # 4; 3 # 4]%Q;
     BaseChecks.y_proba_test := None;
     BaseChecks.model_classes := None |}.

End Fixtures.

(** ** The recommender model wrapper at prediction time *)

Module RecModel.
Import RecContext.

(** The values a series stores under one label. *)
Definition entries_at (s : Series) (x : IxLabel) : list Label :=
  map snd (List.filter (fun e => bool_decide (fst e = x)) s).

(** [series.loc[labels].to_numpy()]: the values stored under each label, in
    the order of the labels; a label the series does not have is a
    [KeyError]. *)
Fixpoint series_loc (s : Series) (labels : list IxLabel) : result (list Label) :=
  match labels with
  | [] => Ok []
  | x :: rest =>
      match entries_at s x with
      | [] => Raise (PyError "KeyError" "labels not in index")
      | values =>
          match series_loc s rest with
          | Ok out => Ok (values ++ out)%list
          | Raise e => Raise e
          end
      end
  end.

(** Positions of the rows a frame stores under one label. *)
Definition rows_at (f : Frame) (x : IxLabel) : list nat :=
  map fst (List.filter (fun p => bool_decide (snd p = x))
                       (zip (seq 0 (length (index f))) (index f))).

(** The rows of a frame at the given positions. *)
Definition take_rows (f : Frame) (positions : list nat) : Frame :=
  {| index := omap (fun i => index f !! i) positions;
     cols := map (fun c => (fst c, omap (fun i => snd c !! i) positions)) (cols f) |}.

(** [frame.loc[labels]] *)
Fixpoint positions_of (f : Frame) (labels : list IxLabel) : result (list nat) :=
  match labels with
  | [] => Ok []
  | x :: rest =>
      match rows_at f x with
      | [] => Raise (PyError "KeyError" "labels not in index")
      | here =>
          match positions_of f rest with
          | Ok out => Ok (here ++ out)%list
          | Raise e => Raise e
          end
      end
  end.

Definition frame_loc (f : Frame) (labels : list IxLabel) : result Frame :=
  match positions_of f labels with
  | Ok positions => Ok (take_rows f positions)
  | Raise e => Raise e
  end.

Definition cell_eqb (a b : Cell) : bool :=
  match a, b with
  | CNum x, CNum y => Qeq_bool x y
  | CCat x, CCat y => bool_decide (x = y)
  | CNa, CNa => true
  | _, _ => false
  end.

Fixpoint cells_eqb (a b : list Cell) : bool :=
  match a, b with
  | [], [] => true
  | x :: a', y :: b' => cell_eqb x y && cells_eqb a' b'
  | _, _ => false
  end.

Fixpoint cols_eqb (a b : list (string * list Cell)) : bool :=
  match a, b with
  | [], [] => true
  | x :: a', y :: b' =>
      bool_decide (fst x = fst y) && cells_eqb (snd x) (snd y) && cols_eqb a' b'
  | _, _ => false
  end.

(** [a.equals(b)]: same row labels, same columns, same values; missing
    values in the same place count as equal. *)
Definition frame_equals (a b : Frame) : bool :=
  bool_decide (index a = index b) && cols_eqb (cols a) (cols b).

(** The draws [_validate_data] takes from numpy's ambient generator:
    [data.sample(n)], [np.random.choice(labels, size)], and [np.unique]. *)
Record Random : Type := mkRandom {
  frame_sample : Frame -> nat -> Eff Frame;
  random_choice : list IxLabel -> nat -> Eff (list IxLabel);
  np_unique : list IxLabel -> list IxLabel;
}.

Definition msg_unseen_data : string :=
  "Data that has not been seen before passed for inference with static " ++
  "predictions. Pass a real model to resolve this".

(** [set(a).issubset(set(b))] *)
Definition issubset (a b : list IxLabel) : bool :=
  forallb (fun x => bool_decide (x ∈ b)) a.

(** The loop of [_validate_data], lines 90-99: the first registered frame
    whose index holds every label of [data] decides; a mismatch leaves the
    loop. *)
Fixpoint validate_against (R : Random) (data : Frame) (feature_df_list : list Frame)
  : Eff unit :=
  match feature_df_list with
  | [] => fun g => (g, Raise (DeepchecksValueError msg_unseen_data))
  | feature_df :: rest =>
      if issubset (index data) (index feature_df)
      then fun g =>
        match random_choice R (index data) 30 g with
        | (g', Raise e) => (g', Raise e)
        | (g', Ok drawn) =>
            let sample_data := np_unique R drawn in
            match frame_loc feature_df sample_data, frame_loc data sample_data with
            | Raise e, _ => (g', Raise e)
            | Ok _, Raise e => (g', Raise e)
            | Ok a, Ok b =>
                if frame_equals a b then (g', Ok tt)
                else (g', Raise (DeepchecksValueError msg_unseen_data))
            end
        end
      else validate_against R data rest
  end.

(** [_DummyModel._validate_data] *)
Definition _validate_data (R : Random) (self : DummyModel) (data : Frame) : Eff unit :=
  fun g =>
    match frame_sample R data (Nat.min 100 (length (index data))) g with
    | (g', Raise e) => (g', Raise e)
    | (g', Ok data) => validate_against R data (feature_df_list self) g'
    end.

(** [_DummyModel._predict] *)
Definition _predict (R : Random) (self : DummyModel) (data : Frame) : Eff (list Label) :=
  fun g =>
    let '(g', checked) :=
      if validate_data_on_predict self then _validate_data R self data g else (g, Ok tt) in
    match checked with
    | Raise e => (g', Raise e)
    | Ok _ =>
        match predictions self with
        | None => (g', Raise (PyError "AttributeError"
                                "'NoneType' object has no attribute 'loc'"))
        | Some s => (g', series_loc s (index data))
        end
    end.

End RecModel.

(** ** The recommender context: classes, popularity and scorers *)

Module RecClasses.

(** A label of a recommender dataset: one item, or the items of one user.
    Items are numbers; [None] is a missing value. *)
Inductive RecLabel : Type :=
  | One (item : option Z)
  | Many (items : list (option Z)).

(** What the properties of the context look at: the train labels and the
    three lazily filled attributes.  [item_popularity] is the dictionary as
    a map; the order of its entries is not modelled. *)
Record Ctx : Type := mkCtx {
  train_label_col : list RecLabel;
  _model_classes : option (list Z);
  _observed_classes : option (list Z);
  _item_popularity : option (gmap Z nat);
}.

(** [is_sequence_not_str(label_col.iloc[0])] *)
Definition first_is_sequence (label_col : list RecLabel) : result bool :=
  match label_col with
  | [] => Raise (PyError "IndexError" "single positional indexer is out-of-bounds")
  | Many _ :: _ => Ok true
  | One _ :: _ => Ok false
  end.

(** [[item for sublist in label_col for item in sublist]] *)
Fixpoint flatten (label_col : list RecLabel) : result (list (option Z)) :=
  match label_col with
  | [] => Ok []
  | Many items :: rest =>
      match flatten rest with
      | Ok out => Ok (items ++ out)%list
      | Raise e => Raise e
      end
  | One (Some _) :: _ => Raise (PyError "TypeError" "'int' object is not iterable")
  | One None :: _ => Raise (PyError "TypeError" "'float' object is not iterable")
  end.

(** The label column itself as a series of items: a list among the labels
    cannot be hashed. *)
Fixpoint scalars (label_col : list RecLabel) : result (list (option Z)) :=
  match label_col with
  | [] => Ok []
  | One item :: rest =>
      match scalars rest with
      | Ok out => Ok (item :: out)
      | Raise e => Raise e
      end
  | Many _ :: _ => Raise (PyError "TypeError" "unhashable type: 'list'")
  end.

(** The items that both properties count: flattened when the first label is
    a sequence. *)
Definition train_items (label_col : list RecLabel) : result (list (option Z)) :=
  match first_is_sequence label_col with
  | Raise e => Raise e
  | Ok true => flatten label_col
  | Ok false => scalars label_col
  end.

(** [.dropna()] *)
Definition dropna (items : list (option Z)) : list Z := omap id items.

(** [.unique()]: first occurrences, in order. *)
Fixpoint unique_from (seen : list Z) (l : list Z) : list Z :=
  match l with
  | [] => []
  | x :: rest =>
      if decide (x ∈ seen) then unique_from seen rest
      else x :: unique_from (x :: seen) rest
  end.
Definition unique (l : list Z) : list Z := unique_from [] l.

Definition sorted (l : list Z) : list Z := merge_sort Z.le l.

(** The property [observed_classes]: computed on first use, then kept. *)
Definition observed_classes (self : Ctx) : Ctx * result (list Z) :=
  match _observed_classes self with
  | Some classes => (self, Ok classes)
  | None =>
      match train_items (train_label_col self) with
      | Raise e => (self, Raise e)
      | Ok labels =>
          let classes := sorted (unique (dropna labels)) in
          ({| train_label_col := train_label_col self;
              _model_classes := _model_classes self;
              _observed_classes := Some classes;
              _item_popularity := _item_popularity self |}, Ok classes)
      end
  end.

(** The property [model_classes] *)
Definition model_classes (self : Ctx) : Ctx * result (list Z) :=
  match _model_classes self with
  | None => observed_classes self
  | Some classes => (self, Ok classes)
  end.

(** [.value_counts().to_dict()]: how often each item occurs; missing values
    are not counted. *)
Definition value_counts (items : list (option Z)) : gmap Z nat :=
  foldr (fun item counts =>
           match item with
           | Some z => <[z := S (default 0%nat (counts !! z))]> counts
           | None => counts
           end) ∅ items.

(** The property [item_popularity]: computed on first use, then kept. *)
Definition item_popularity (self : Ctx) : Ctx * result (gmap Z nat) :=
  match _item_popularity self with
  | Some popularity => (self, Ok popularity)
  | None =>
      match train_items (train_label_col self) with
      | Raise e => (self, Raise e)
      | Ok items =>
          ({| train_label_col := train_label_col self;
              _model_classes := _model_classes self;
              _observed_classes := _observed_classes self;
              _item_popularity := Some (value_counts items) |}, Ok (value_counts items))
      end
  end.

Definition is_many (l : RecLabel) : Prop :=
  match l with Many _ => True | One _ => False end.
Definition is_one (l : RecLabel) : Prop :=
  match l with One _ => True | Many _ => False end.


End RecClasses.

Module RecScorers.

Section Scorers.

(** Per-sample metric functions and the keyword arguments built by
    [get_scorer_kwargs]. *)
Context {MetricFn Kwargs : Type}.
(** [getattr(ranking, name)] for the names the module [ranking] defines. *)
Variable ranking : string -> option MetricFn.
(** [DeepcheckScorer.__init__] *)
Variable deepcheck_scorer_init : MetricFn -> option string -> result unit.
(** [self.get_scorer_kwargs()] *)
Variable get_scorer_kwargs : result Kwargs.

Inductive DictValue : Type :=
  | VName (name : string)
  | VCallable (f : MetricFn).

(** What a caller may pass as [metric]. *)
Inductive MetricArg : Type :=
  | ACallable (f : MetricFn)
  | AName (name : string)
  | ADict (entries : list (string * DictValue))
  | AOther.

Record Scorer : Type := mkScorer {
  per_sample_metric : MetricFn;
  sc_name : option string;
  to_avg : bool;
  sc_k : option Z;
  metric_kwargs : Kwargs;
}.

Definition getattr_ranking (name : string) : result MetricFn :=
  match ranking name with
  | Some f => Ok f
  | None => Raise (PyError "AttributeError" ("module has no attribute " ++ name))
  end.

(** The metric lookup of [Scorer.__init__], lines 143-150. *)
Definition resolve_metric (metric : MetricArg) : result MetricFn :=
  match metric with
  | ACallable f => Ok f
  | AName name => getattr_ranking name
  | ADict [] => Raise (PyError "IndexError" "list index out of range")
  | ADict ((_, VName name) :: _) => getattr_ranking name
  | ADict ((_, VCallable _) :: _) =>
      Raise (PyError "TypeError" "attribute name must be string")
  | AOther => Raise (DeepchecksValueError "Wrong scorer type")
  end.

(** [Scorer(metric, name, to_avg, k, **kwargs)] *)
Definition Scorer_init (metric : MetricArg) (name : option string) (to_avg : bool)
    (k : option Z) (kwargs : Kwargs) : result Scorer :=
  match resolve_metric metric with
  | Raise e => Raise e
  | Ok f =>
      match deepcheck_scorer_init f name with
      | Raise e => Raise e
      | Ok _ => Ok {| per_sample_metric := f; sc_name := name; to_avg := to_avg;
                      sc_k := k; metric_kwargs := kwargs |}
      end
  end.

(** A call [Scorer(..., **self.get_scorer_kwargs())]: the keyword arguments
    are evaluated before the constructor runs. *)
Definition new_scorer (metric : MetricArg) (name : option string) (to_avg : bool)
    (k : option Z) : result Scorer :=
  match get_scorer_kwargs with
  | Raise e => Raise e
  | Ok kwargs => Scorer_init metric name to_avg k kwargs
  end.

Inductive ScorersArg : Type :=
  | NoScorers
  | ByName (scorers : list (string * MetricArg))
  | Listed (scorers : list MetricArg).

Fixpoint all_ok {A} (l : list (result A)) : result (list A) :=
  match l with
  | [] => Ok []
  | Raise e :: _ => Raise e
  | Ok a :: rest =>
      match all_ok rest with
      | Ok out => Ok (a :: out)
      | Raise e => Raise e
      end
  end.

(** [Context.get_scorers] *)
Definition get_scorers (scorers : ScorersArg) (use_avg_defaults : bool) (k : Z)
  : result (list Scorer) :=
  match scorers with
  | NoScorers =>
      all_ok [new_scorer (AName "reciprocal_rank") None use_avg_defaults None]
  | ByName entries =>
      all_ok (map (fun e => new_scorer (snd e) (Some (fst e)) use_avg_defaults (Some k))
                  entries)
  | Listed entries =>
      all_ok (map (fun m => new_scorer m None use_avg_defaults (Some k)) entries)
  end.

(** [Context.get_single_scorer] *)
Definition get_single_scorer (scorer : option MetricArg) (use_avg_defaults : bool) (k : Z)
  : result Scorer :=
  match scorer with
  | None => new_scorer (AName "reciprocal_rank") None use_avg_defaults None
  | Some metric => new_scorer metric None use_avg_defaults (Some k)
  end.

End Scorers.

End RecScorers.

(** ** The context class across runs of one check *)

Module BaseChecksCalls.
Import BaseChecks.

Section Calls.

Context {DatasetT ItemDatasetT InteractionDatasetT ModelT : Type}.
Variable label_type : DatasetT -> LabelType.

(** The same call of [run] with other values for [y_pred_test] and
    [y_proba_test]. *)
Definition with_test_predictions
    (a : @Args DatasetT ItemDatasetT InteractionDatasetT ModelT)
    (pred_test proba_test : option Array)
  : @Args DatasetT ItemDatasetT InteractionDatasetT ModelT :=
  {| dataset := dataset a;
     model := model a;
     item_dataset := item_dataset a;
     interaction_dataset := interaction_dataset a;
     feature_importance := feature_importance a;
     feature_importance_force_permutation := feature_importance_force_permutation a;
     feature_importance_timeout := feature_importance_timeout a;
     with_display := with_display a;
     y_pred := y_pred a;
     y_proba := y_proba a;
     y_pred_train := y_pred_train a;
     y_pred_test := pred_test;
     y_proba_train := y_proba_train a;
     y_proba_test := proba_test;
     model_classes := model_classes a |}.

(** The deprecation warnings of lines 89-103, in the order they are issued. *)
Definition deprecations (a : @Args DatasetT ItemDatasetT InteractionDatasetT ModelT)
  : list Warning :=
  ((if y_pred_train a is Some _
    then [deprecation "y_pred_train is deprecated, please use y_pred instead."] else []) ++
   (if y_proba_train a is Some _
    then [deprecation "y_proba_train is deprecated, please use y_proba instead."] else []) ++
   ignored_warnings a)%list.

(** [self.context_type] as assigned on line 109 or line 121. *)
Definition assigned_context_type (context_type : option ContextClass)
    (a : @Args DatasetT ItemDatasetT InteractionDatasetT ModelT) : ContextClass :=
  if decide (label_type (dataset a) = RECOMMENDETION) then RecContextClass
  else default TabularContextClass context_type.

(** [self.context_type] when [run] has returned or raised: the assignment
    is reached exactly when the argument checks pass. *)
Definition context_type_after (context_type : option ContextClass)
    (a : @Args DatasetT ItemDatasetT InteractionDatasetT ModelT) (ws : list Warning)
  : option ContextClass :=
  match snd (check_args label_type a ws) with
  | Ok _ => Some (assigned_context_type context_type a)
  | Raise _ => context_type
  end.

(** The keywords of the constructor call, lines 110-118 and 122-132. *)
Definition call_keywords (a : @Args DatasetT ItemDatasetT InteractionDatasetT ModelT)
  : list string :=
  if decide (label_type (dataset a) = RECOMMENDETION)
  then ["train"; "item_dataset"; "interaction_dataset"; "feature_importance";
        "feature_importance_force_permutation"; "feature_importance_timeout";
        "with_display"; "y_pred_train"]
  else ["train"; "model"; "feature_importance"; "feature_importance_force_permutation";
        "feature_importance_timeout"; "with_display"; "y_pred_train"; "y_proba_train";
        "model_classes"].

End Calls.

(** The parameters of the recommender [Context.__init__]
    (recommender/context.py, lines 224-236); it takes no [**kwargs]. *)
Definition RecContext_init_params : list string :=
  ["train"; "test"; "item_dataset"; "interaction_dataset"; "feature_importance";
   "feature_importance_force_permutation"; "feature_importance_timeout"; "with_display";
   "y_pred_train"; "y_pred_test"].

(** Binding keyword arguments to such a signature: the first keyword that
    is not a parameter is a type error. *)
Definition bind_keywords (params keywords : list string) : result unit :=
  match List.find (fun k => negb (bool_decide (k ∈ params))) keywords with
  | Some k => Raise (PyError "TypeError" ("__init__() got an unexpected keyword argument '" ++ k ++ "'"))
  | None => Ok tt
  end.

End BaseChecksCalls.

(** ** The session-length drift check of the recommender package *)

Module UserSessionDrift.

Record Check : Type := mkCheck {
  margin_quantile_filter : Q;
  max_num_categories_for_drift : option Z;
  min_category_size_ratio : Q;
  max_num_categories_for_display : Z;
  show_categories_by : string;
  numerical_drift_method : string;
  categorical_drift_method : string;
  balance_classes : bool;
  ignore_na : bool;
  aggregation_method : option string;
  min_samples : option Z;
  n_samples : Z;
  random_state : Z;
}.

(** [UserSessionDrift.__init__], past the call of the parent's constructor. *)
Definition init (margin_quantile_filter : Q) (max_num_categories_for_drift : option Z)
    (min_category_size_ratio : Q) (max_num_categories_for_display : Z)
    (show_categories_by numerical_drift_method categorical_drift_method : string)
    (balance_classes ignore_na : bool) (aggregation_method : option string)
    (min_samples : option Z) (n_samples random_state : Z) : result Check :=
  if bool_decide (aggregation_method ∈ [Some "weighted"; Some "mean"; Some "none"; None;
                                         Some "max"])
  then Ok (mkCheck margin_quantile_filter max_num_categories_for_drift
             min_category_size_ratio max_num_categories_for_display show_categories_by
             numerical_drift_method categorical_drift_method balance_classes ignore_na
             aggregation_method min_samples n_samples random_state)
  else Raise (DeepchecksValueError
                ("aggregation_method must be one of " ++ RecContext.dq ++ "weighted" ++
                 RecContext.dq ++ ", " ++ RecContext.dq ++ "mean" ++ RecContext.dq ++ ", " ++
                 RecContext.dq ++ "max" ++ RecContext.dq ++ ", None")).

(** An interaction dataset as far as the check reads it: the name of its
    user column, and the columns of its frame that hold ids ([None] is a
    missing id). *)
Record InteractionDataset : Type := mkInteractionDataset {
  user_index_name : string;
  data : gmap string (list (option Z));
}.

(** [context.train] and [context.test]: the dataset, or the error the
    property raises. *)
Record Context : Type := mkContext {
  train : result InteractionDataset;
  test : result InteractionDataset;
  with_display : bool;
}.

Record CheckResult : Type := mkCheckResult {
  value : pyfloat;
  header : string;
  display : list string;
}.

(** [calc_drift_and_plot] with the check's parameters, the two columns and
    [with_display]; it returns the score, the method and the display. *)
Definition DriftFn : Type :=
  Check -> list nat -> list nat -> bool -> result (pyfloat * string * list string).

(** [frame[column]] *)
Definition getitem (ds : InteractionDataset) (column : string) : result (list (option Z)) :=
  match data ds !! column with
  | Some values => Ok values
  | None => Raise (PyError "KeyError" column)
  end.

Definition ge_nat (a b : nat) : Prop := (b <= a)%nat.
#[global] Instance ge_nat_dec : RelDecision ge_nat.
Proof. intros a b. unfold ge_nat. apply _. Defined.

(** [column.value_counts().tolist()]: how often each id occurs, largest
    count first; missing ids are not counted. *)
Definition session_lengths (column : list (option Z)) : list nat :=
  merge_sort ge_nat (map snd (map_to_list (RecClasses.value_counts column))).

(** [UserSessionDrift.run_logic] *)
Definition run_logic (calc_drift_and_plot : DriftFn) (self : Check) (context : Context)
  : result CheckResult :=
  match train context with
  | Raise e => Raise e
  | Ok train_dataset =>
  match test context with
  | Raise e => Raise e
  | Ok test_dataset =>
      let user_col := user_index_name train_dataset in
      if bool_decide (user_col = user_index_name test_dataset)
      then
        match getitem train_dataset user_col with
        | Raise e => Raise e
        | Ok train_users =>
        match getitem test_dataset user_col with
        | Raise e => Raise e
        | Ok test_users =>
            match calc_drift_and_plot self (session_lengths train_users)
                    (session_lengths test_users) (with_display context) with
            | Raise e => Raise e
            | Ok (drift_score, _, drift_display) =>
                Ok {| value := drift_score;
                      header := "Session Length Bias";
                      display := drift_display |}
            end
        end
        end
      else Raise (PyError "AssertionError" EmptyString)
  end
  end.

(** Two columns tell the same sessions when one is the other with its rows
    reordered and its users renamed one to one. *)
Definition same_sessions (a b : list (option Z)) : Prop :=
  exists rename : Z -> Z, Inj (=) (=) rename /\ b ≡ₚ map (fmap rename) a.

End UserSessionDrift.

(** ** Further concrete inputs *)

Module Examples.
Import Fixtures.

(** The conflicting-labels check on up to ten samples, five rows shown. *)
Definition check_labels : ConflictingLabels.Check :=
  {| ConflictingLabels.ignore_case := true;
     ConflictingLabels.remove_punctuation := true;
     ConflictingLabels.normalize_unicode := true;
     ConflictingLabels.remove_stopwords := true;
     ConflictingLabels.ignore_whitespace := false;
     ConflictingLabels.n_to_show := 5;
     ConflictingLabels.n_samples := 10;
     ConflictingLabels.random_state := 7;
     ConflictingLabels.max_text_length_for_display := 30 |}.

Definition context_shown : Context :=
  context_of reviews (coin_model true) TEXT_CLASSIFICATION true.

(** The reviews as a dataset of another task type. *)
Definition reviews_other : TextData :=
  {| td_index := td_index reviews;
     td_text := td_text reviews;
     td_label := td_label reviews;
     td_task_type := OTHER;
     td_multi_label := false;
     td_metadata := td_metadata reviews;
     td_properties := td_properties reviews |}.

Definition context_other_shown : Context :=
  context_of reviews_other (coin_model true) OTHER true.


(** Draws that take the first rows and the first labels. *)
Definition rec_random : RecModel.Random :=
  {| RecModel.frame_sample := fun f n g => (g, Ok (RecModel.take_rows f (seq 0 n)));
     RecModel.random_choice := fun labels n g => (g, Ok (take n labels));
     RecModel.np_unique := remove_dups |}.

Definition rec_state (h : gmap nat RecContext.Frame) : RecContext.State :=
  {| RecContext.heap := h; RecContext.log := [] |}.

(** A wrapper that knows the frame [frame_c] only. *)
Definition model_of_frame_c : RecContext.DummyModel :=
  {| RecContext.predictions := Some [(RecContext.IInt 5, LInt 7); (RecContext.IInt 6, LInt 8)];
     RecContext.feature_df_list := [frame_c];
     RecContext.validate_data_on_predict := true;
     RecContext.has_predict := true |}.


(** A ranking module with two metrics, named by themselves. *)
Definition ranking (name : string) : option string :=
  if decide (name ∈ ["reciprocal_rank"; "precision_at_k"]) then Some name else None.


Definition run_args_recommendation
  : @BaseChecks.Args BaseChecks.LabelType unit unit unit :=
  {| BaseChecks.dataset := BaseChecks.RECOMMENDETION;
     BaseChecks.model := None;
     BaseChecks.item_dataset := Some tt;
     BaseChecks.interaction_dataset := None;
     BaseChecks.feature_importance := None;
     BaseChecks.feature_importance_force_permutation := false;
     BaseChecks.feature_importance_timeout := 120;
     BaseChecks.with_display := true;
     BaseChecks.y_pred := Some [0; 1]%Q;
     BaseChecks.y_proba := None;
     BaseChecks.y_pred_train := None;
     BaseChecks.y_pred_test := None;
     BaseChecks.y_proba_train := None;
     BaseChecks.y_proba_test := None;
     BaseChecks.model_classes := None |}.

(** The session-length check with its default parameters, a drift function
    that compares the numbers of sessions, and two frames that tell the
    same sessions: rows reordered, users 1 and 2 renamed to 10 and 20. *)
Definition session_check : UserSessionDrift.Check :=
  UserSessionDrift.mkCheck (25 # 1000) None (1 # 100) 10 "largest_difference" "KS"
    "cramers_v" false true (Some "max") (Some 10) 100000 42.

Definition drift_by_count : UserSessionDrift.DriftFn :=
  fun _ train_column test_column _ =>
    Ok (Fin (Z.of_nat (length train_column) - Z.of_nat (length test_column) # 1), "KS", []).

Definition sessions_frame : gmap string (list (option Z)) :=
  {[ "user" := [Some 1; Some 2; Some 1; None] ]}.
Definition sessions_frame_renamed : gmap string (list (option Z)) :=
  {[ "user" := [Some 20; Some 10; None; Some 10] ]}.

End Examples.

(** * Reasoning about runs in [M] *)

Section MonadFacts.
Context {A B : Type}.

Lemma bind_inv (m : M A) (k : A -> M B) w w' r :
  (m ≫= k) w = (w', r) ->
  (exists e, m w = (w', Raise e) /\ r = Raise e) \/
  (exists a w1, m w = (w1, Ok a) /\ k a w1 = (w', r)).
Proof.
  unfold mbind, M_bind, bind. destruct (m w) as [w1 [a|e]]; intros H.
  - right. eauto.
  - left. injection H as <- <-. eauto.
Qed.

Lemma call_inv (ev : Event) (f : Eff A) w w' r :
  call ev f w = (w', r) ->
  exists g, f (ambient w) = (g, r) /\ w' = mkWorld g (trace w ++ [ev]).
Proof.
  unfold call. destruct (f (ambient w)) as [g r0]. intros [= <- <-]. eauto.
Qed.

Lemma lift_inv (x : result A) w w' r : lift x w = (w', r) -> w' = w /\ r = x.
Proof. unfold lift. intros [= <- <-]. auto. Qed.

Lemma emits_silent P (m : M A) :
  (forall w w' r, m w = (w', r) -> w' = w) -> emits P m.
Proof.
  intros Hm w w' r H. apply Hm in H as ->. exists []. split; [|constructor].
  symmetry. apply app_nil_r.
Qed.

Lemma emits_ret P (a : A) : emits P (mret a).
Proof. apply emits_silent. intros w w' r [= <- _]. reflexivity. Qed.

Lemma emits_raise P e : emits P (raise e : M A).
Proof. apply emits_silent. intros w w' r [= <- _]. reflexivity. Qed.

Lemma emits_lift P (x : result A) : emits P (lift x).
Proof. apply emits_silent. intros w w' r [= <- _]. reflexivity. Qed.

Lemma emits_call (P : Event -> Prop) ev (f : Eff A) : P ev -> emits P (call ev f).
Proof.
  intros Hev w w' r H. apply call_inv in H as (g & _ & ->).
  exists [ev]. split; [reflexivity | repeat constructor; assumption].
Qed.

End MonadFacts.

Lemma emits_bind {A B} (P : Event -> Prop) (m : M A) (k : A -> M B) :
  emits P m -> (forall a, emits P (k a)) -> emits P (m ≫= k).
Proof.
  intros Hm Hk w w' r H.
  apply bind_inv in H as [(e & H & ->)|(a & w1 & H & Hk')].
  - exact (Hm _ _ _ H).
  - destruct (Hm _ _ _ H) as (evs1 & Ht1 & Hall1).
    destruct (Hk a _ _ _ Hk') as (evs2 & Ht2 & Hall2).
    exists (evs1 ++ evs2)%list. split.
    + rewrite Ht2, Ht1. symmetry. apply app_assoc.
    + apply Forall_app. auto.
Qed.

(** Proves [emits P m] for straight-line code by walking its binds. *)
Ltac emits_walk :=
  repeat first
    [ apply emits_ret | apply emits_raise | apply emits_lift
    | apply emits_call; simpl; solve [reflexivity | tauto | auto]
    | apply emits_bind; [|intros ?]
    | match goal with
      | |- emits _ (match ?x with _ => _ end) => destruct x
      | |- emits _ (if ?x then _ else _) => destruct x
      end ].

(** * Facts about the weak-segments check *)

Module WeakSegmentsFacts.
Import WeakSegments.

Lemma prepare_emits D self context kind :
  emits prepare_event (prepare D self context kind).
Proof. unfold prepare. emits_walk. Qed.

Lemma finish_emits D self context enc cat sps dm sc avg segs :
  emits finish_event (finish D self context enc cat sps dm sc avg segs).
Proof. unfold finish. emits_walk. Qed.

Lemma Forall_not_elem (P : Event -> Prop) evs ev : Forall P evs -> ~ P ev -> ev ∉ evs.
Proof. intros Hall Hn Hin. apply Hn. rewrite Forall_forall in Hall. auto. Qed.


Lemma score_branch_given D self context td feats enc given w w' out :
  score_per_sample self = Some given ->
  score_branch D self context td feats enc w = (w', out) ->
  w' = w /\
  match getitem given (df_index feats) with
  | Ok sps => out = Ok (sps, None, None, round (mean sps) 3)
  | Raise e => out = Raise e
  end.
Proof.
  unfold score_branch. intros -> H.
  apply bind_inv in H as [(e & H & ->)|(sps & w1 & H & Hr)];
    apply lift_inv in H as [-> <-]; [auto|].
  injection Hr as <- <-. auto.
Qed.

(** How a run of [run_logic] decomposes into its four phases. *)
Lemma run_logic_inv D self context kind w w' r :
  run_logic D self context kind w = (w', r) ->
  (exists e, prepare D self context kind w = (w', Raise e) /\ r = Raise e) \/
  exists p w1,
    prepare D self context kind w = (w1, Ok p) /\
    ((exists e, score_branch D self context (text_data p) (features p)
                  (encoded_dataset p) w1 = (w', Raise e) /\ r = Raise e) \/
     exists sps dm sc avg w2 g sr,
       score_branch D self context (text_data p) (features p) (encoded_dataset p) w1
         = (w2, Ok (sps, dm, sc, avg)) /\
       weak_segments_search D self (ds_data (encoded_dataset p)) sps
         (ds_label_col (encoded_dataset p)) (ds_features (encoded_dataset p)) dm sc
         (ambient w2) = (g, sr) /\
       let w3 := mkWorld g (trace w2 ++ [EvWeakSegmentsSearch sps (bool_decide (is_Some dm))]) in
       match sr with
       | Raise e => w' = w3 /\ r = Raise e
       | Ok segs =>
           finish D self context (encoded_dataset p) (cat_features p) sps dm sc avg segs w3
             = (w', r)
       end).
Proof.
  unfold run_logic. intros H.
  apply bind_inv in H as [(e & H & ->)|(p & w1 & Hp & H)]; [left; eauto|].
  right. exists p, w1. split; [assumption|].
  apply bind_inv in H as [(e & H & ->)|([[[sps dm] sc] avg] & w2 & Hs & H)]; [left; eauto|].
  right. exists sps, dm, sc, avg, w2.
  apply bind_inv in H as [(e & H & ->)|(segs & w3 & Hc & H)].
  - apply call_inv in H as (g & Hw & ->). exists g, (Raise e). auto.
  - apply call_inv in Hc as (g & Hw & ->). exists g, (Ok segs). auto.
Qed.


Lemma finish_empty D self context enc cat sps dm sc avg w :
  finish D self context enc cat sps dm sc avg [] w =
  (w, Raise (DeepchecksProcessError
               ("WeakSegmentsPerformance was unable to train an error model to find weak " ++
                "segments. Try increasing n_samples or supply more " ++ segment_by self ++ "."))).
Proof. reflexivity. Qed.


Lemma score_branch_emits D self context td feats enc :
  emits score_event (score_branch D self context td feats enc).
Proof. unfold score_branch. emits_walk. Qed.






(** C5.  If the search engine returns an empty list, the run never
    succeeds, and a run that reached the search ends with the processing
    error whose message suggests increasing [n_samples] or supplying more
    columns of the kind segmented by. *)
Theorem empty_search_is_processing_failure D self context kind w w' r :
  (forall data sps label_col feats dm sc g,
     exists g', weak_segments_search D self data sps label_col feats dm sc g = (g', Ok [])) ->
  run_logic D self context kind w = (w', r) ->
  is_ok r = false /\
  exists evs,
    trace w' = (trace w ++ evs)%list /\
    forall sps b, EvWeakSegmentsSearch sps b ∈ evs ->
      r = Raise (DeepchecksProcessError
                   ("WeakSegmentsPerformance was unable to train an error model to find weak " ++
                    "segments. Try increasing n_samples or supply more " ++
                    segment_by self ++ ".")).
Proof.
  intros Hempty H.
  apply run_logic_inv in H as [(e & Hp & ->)|(p & w1 & Hp & H)].
  { split; [reflexivity|].
    destruct (prepare_emits _ _ _ _ _ _ _ Hp) as (evs & Ht & Hall).
    exists evs. split; [assumption|]. intros sps b Hin.
    exfalso. eapply Forall_not_elem; [exact Hall| |exact Hin]. simpl. tauto. }
  destruct (prepare_emits _ _ _ _ _ _ _ Hp) as (pre & Hpre & Hall).
  destruct H as [(e & Hb & ->)|(sps & dm & sc & avg & w2 & g & sr & Hb & Hw & H)];
    destruct (score_branch_emits _ _ _ _ _ _ _ _ _ Hb) as (mid & Hmid & Hall').
  { split; [reflexivity|]. exists (pre ++ mid)%list. split.
    - rewrite Hmid, Hpre, <- app_assoc. reflexivity.
    - intros s b Hin. exfalso. apply elem_of_app in Hin as [Hin|Hin];
        (eapply Forall_not_elem; [|  |exact Hin]; [eassumption|]); simpl; tauto. }
  destruct (Hempty (ds_data (encoded_dataset p)) sps (ds_label_col (encoded_dataset p))
              (ds_features (encoded_dataset p)) dm sc (ambient w2)) as (g' & Hw').
  rewrite Hw' in Hw. injection Hw as <- <-. simpl in H.
  rewrite finish_empty in H. injection H as <- <-.
  split; [reflexivity|]. eexists. split; [|reflexivity].
  simpl. rewrite Hmid, Hpre, <- !app_assoc. reflexivity.
Qed.





Lemma given_scores_reach_search D self context kind given w w1 p sps w' r :
  score_per_sample self = Some given ->
  prepare D self context kind w = (w1, Ok p) ->
  getitem given (df_index (features p)) = Ok sps ->
  run_logic D self context kind w = (w', r) ->
  exists post, trace w' = (trace w1 ++ EvWeakSegmentsSearch sps false :: post)%list.
Proof.
  intros Hg Hp Hget H.
  apply run_logic_inv in H as [(e & Hp' & _)|(p' & w1' & Hp' & H)];
    rewrite Hp in Hp'; [discriminate|]. injection Hp' as <- <-.
  destruct H as [(e & Hb & ->)|(sps' & dm & sc & avg & w2 & g & sr & Hb & _ & H)];
    destruct (score_branch_given _ _ _ _ _ _ _ _ _ _ Hg Hb) as [-> Hout];
    rewrite Hget in Hout; [discriminate|]. injection Hout as -> -> -> ->.
  destruct sr as [segs|e].
  - destruct (finish_emits _ _ _ _ _ _ _ _ _ _ _ _ _ H) as (post & Hpost & _).
    exists post. rewrite Hpost. simpl. rewrite <- app_assoc. reflexivity.
  - destruct H as [-> _]. exists []. reflexivity.
Qed.






(** The theorem for C5 with a search engine that finds nothing. *)
Lemma empty_search_is_processing_failure_witness :
  is_process_error
    (snd (run_logic Fixtures.deps_finding_nothing Fixtures.check_given
            Fixtures.context_with_proba TRAIN Fixtures.w0)) = true /\
  is_ok
    (snd (run_logic Fixtures.deps_finding_nothing Fixtures.check_given
            Fixtures.context_with_proba TRAIN Fixtures.w0)) = false.
Proof.
  split; [vm_compute; reflexivity|].
  refine (proj1 (empty_search_is_processing_failure Fixtures.deps_finding_nothing
                   Fixtures.check_given Fixtures.context_with_proba TRAIN Fixtures.w0 _ _
                   _ (surjective_pairing _))).
  intros data sps label_col feats dm sc g. exists g. reflexivity.
Defined.



(** What the two unsupported runs return on the example. *)
Example unsupported_runs :
  run_logic Fixtures.deps Fixtures.check_model Fixtures.context_without_proba TRAIN Fixtures.w0
  = ({| ambient := 42;
        trace := [EvSample 10 42; EvGetRelevantDataTable; EvTargetEncode; EvModelPredict] |},
     Raise (DeepchecksNotSupportedError msg_no_proba)) /\
  run_logic Fixtures.deps Fixtures.check_model Fixtures.context_other_task TRAIN Fixtures.w0
  = ({| ambient := 42;
        trace := [EvSample 10 42; EvGetRelevantDataTable; EvTargetEncode; EvModelPredict] |},
     Raise (DeepchecksNotSupportedError (msg_task_not_supported OTHER))).
Proof. split; vm_compute; reflexivity. Qed.

End WeakSegmentsFacts.

(** * Facts about the conflicting-labels check *)

Module ConflictingLabelsFacts.
Import ConflictingLabels.


Lemma labels_run_emits D self context kind :
  emits (seeded_sample self) (run_logic D self context kind).
Proof. unfold run_logic. emits_walk. Qed.

Lemma labels_run_deterministic D self context kind t g1 g2 :
  (forall td n seed ga gb, sample D td n seed ga = sample D td n seed gb) ->
  snd (run_logic D self context kind (mkWorld g1 t))
    = snd (run_logic D self context kind (mkWorld g2 t)) /\
  trace (fst (run_logic D self context kind (mkWorld g1 t)))
    = trace (fst (run_logic D self context kind (mkWorld g2 t))).
Proof.
  intros Hseed. unfold run_logic, mbind, M_bind, bind, lift, call. simpl.
  destruct (get_data_by_kind D context kind) as [td0|e]; [|auto].
  rewrite (Hseed td0 _ _ g1 g2). auto.
Qed.

End ConflictingLabelsFacts.

(** * Facts about the segment search *)

Module SegmentSearchFacts.
Import SegmentSearch.

Section Search.
Variable leaves : DataFrame -> list Q -> list string -> list (list Predicate * list nat).
Variable similarity : list nat -> list nat -> Q.
Variable similarity_threshold : Q.

Lemma insert_ranked_In s x l : In x (insert_ranked s l) -> x = s \/ In x l.
Proof.
  induction l as [|y l IH]; simpl.
  - intros [<-|[]]; auto.
  - destruct (ranks_before s y); simpl.
    + intros [<-|H]; auto.
    + intros [<-|H]; auto. destruct (IH H); auto.
Qed.

Lemma rank_In x l : In x (rank l) -> In x l.
Proof.
  induction l as [|y l IH]; simpl; [tauto|].
  intros H. apply insert_ranked_In in H as [->|H]; auto.
Qed.

Lemma dedup_from_In x kept l :
  In x (dedup_from similarity similarity_threshold kept l) -> In x l.
Proof.
  revert kept. induction l as [|y l IH]; intros kept; simpl; [tauto|].
  destruct (existsb _ kept); simpl.
  - intros H. right. eapply IH, H.
  - intros [<-|H]; auto. right. eapply IH, H.
Qed.

Lemma search_In ratio data scores feature_rank s :
  In s (search leaves similarity similarity_threshold ratio data scores feature_rank) ->
  size_ok ratio (length (df_index data)) s = true /\
  In s (map (mk_segment scores) (leaves data scores feature_rank)).
Proof.
  unfold search. intros H.
  apply dedup_from_In, rank_In, filter_In in H. tauto.
Qed.

End Search.

(** C4.  Every segment the search reports has at least
    [minimum size ratio * N] members, [N] being the number of rows
    searched. *)
Theorem reported_segments_meet_minimum_size leaves similarity similarity_threshold
    ratio data scores feature_rank :
  Forall (fun s =>
            (ratio * inject_Z (Z.of_nat (length (df_index data)))
             <= inject_Z (Z.of_nat (seg_size s)))%Q)
         (search leaves similarity similarity_threshold ratio data scores feature_rank).
Proof.
  apply List.Forall_forall. intros s Hs.
  apply search_In in Hs as [Hok _].
  unfold size_ok in Hok. apply Qle_bool_iff. exact Hok.
Qed.

End SegmentSearchFacts.

(** * Facts about the recommender model wrapper *)

Module RecContextFacts.
Import RecContext.

Lemma init_state train test y_pred_train y_pred_test validate st :
  fst (init train test y_pred_train y_pred_test validate st)
  = prefix_common_indexes train test st.
Proof.
  unfold init.
  destruct (collect _ train _ _) as [acc|e]; [|reflexivity].
  destruct (collect _ test _ _) as [[dfs preds]|e]; reflexivity.
Qed.

Lemma get_frame_set_index_eq (h : gmap nat Frame) addr ix f :
  h !! addr = Some f ->
  get_frame (set_index h addr ix) addr = {| index := ix; cols := cols f |}.
Proof.
  intros Hf. unfold get_frame, set_index. rewrite lookup_alter_eq, Hf. reflexivity.
Qed.

Lemma get_frame_set_index_ne (h : gmap nat Frame) addr addr' ix :
  addr <> addr' -> get_frame (set_index h addr ix) addr' = get_frame h addr'.
Proof.
  intros Hne. unfold get_frame, set_index. rewrite lookup_alter_ne by assumption.
  reflexivity.
Qed.

Lemma index_set_index_eq (h : gmap nat Frame) addr ix :
  is_Some (h !! addr) -> index (get_frame (set_index h addr ix) addr) = ix.
Proof. intros [f Hf]. erewrite get_frame_set_index_eq by eassumption. reflexivity. Qed.

Lemma set_index_allocated (h : gmap nat Frame) addr addr' ix :
  is_Some (h !! addr') -> is_Some (set_index h addr ix !! addr').
Proof. intros H. unfold set_index. apply lookup_alter_is_Some. exact H. Qed.



Lemma common_index_allocated (h : gmap nat Frame) a b :
  common_index (index (get_frame h a)) (index (get_frame h b)) = true ->
  is_Some (h !! a) /\ is_Some (h !! b).
Proof.
  unfold get_frame. intros H.
  destruct (h !! a) as [fa|]; [|discriminate H].
  destruct (h !! b) as [fb|]; [split; eauto|].
  simpl in H. apply existsb_exists in H as (x & _ & Hx).
  apply bool_decide_eq_true in Hx. apply elem_of_nil in Hx. contradiction.
Qed.




End RecContextFacts.

(** * Facts about [SingleDatasetCheck.run] *)

Module BaseChecksFacts.
Import BaseChecks.

Section Run.
Context {DatasetT ItemDatasetT InteractionDatasetT ModelT ContextT ResultT : Type}.
Variable label_type : DatasetT -> LabelType.
Variable new_context :
  ContextKwargs (DatasetT := DatasetT) (ItemDatasetT := ItemDatasetT)
    (InteractionDatasetT := InteractionDatasetT) (ModelT := ModelT) -> W ContextT.
Variable run_logic : ContextT -> DatasetKind -> W ResultT.
Variable finalize_check_result : ContextT -> ResultT -> DatasetKind -> W unit.

#[local] Abbreviation RunArgs := (@Args DatasetT ItemDatasetT InteractionDatasetT ModelT).

Lemma ignored_warnings_deprecation (a : RunArgs) :
  Forall (fun w => w_category w = DeprecationWarning) (ignored_warnings a).
Proof.
  unfold ignored_warnings.
  destruct (y_pred_test a), (y_proba_test a); repeat constructor.
Qed.

Lemma check_args_proba_conflict (a : RunArgs) pt p ws :
  y_proba_train a = Some pt -> y_proba a = Some p ->
  y_pred_train a = None -> y_pred a = None ->
  check_args label_type a ws =
  if bool_decide (label_type (dataset a) <> RECOMMENDETION) && bool_decide (is_Some (item_dataset a))
  then (ws, Raise (DeepchecksNotSupportedError "item_dataset is not supported for tabular datasets."))
  else if bool_decide (label_type (dataset a) = RECOMMENDETION) && bool_decide (is_Some (model_classes a))
  then (ws, Raise (DeepchecksNotSupportedError "model_classes is not supported for recommendation datasets."))
  else ((ws ++ deprecation "y_proba_train is deprecated, please use y_proba instead."
            :: ignored_warnings a)%list,
        Ok (None, Some pt)).
Proof.
  intros Hpt Hp Hyt Hy. unfold check_args, ignored_warnings.
  rewrite Hpt, Hyt, Hy.
  unfold mbind, W_bind, w_bind, mret, W_ret, w_ret, w_raise, warn, when.
  destruct (bool_decide (label_type (dataset a) <> RECOMMENDETION) && _); [reflexivity|].
  destruct (bool_decide (label_type (dataset a) = RECOMMENDETION) && _); [reflexivity|].
  destruct (y_pred_test a), (y_proba_test a); cbn; rewrite <- ?app_assoc; reflexivity.
Qed.

(** C10.  Given both [y_proba_train] and [y_proba], and neither
    [y_pred_train] nor [y_pred], the argument checks never raise the value
    error; when the two dataset-kind guards pass they issue the deprecation
    warning for [y_proba_train] (and those for the ignored keywords), and
    the context is built with the value of [y_proba_train]. *)
Theorem proba_conflict_is_not_rejected context_type (a : RunArgs) pt p ws :
  y_proba_train a = Some pt -> y_proba a = Some p ->
  y_pred_train a = None -> y_pred a = None ->
  (forall msg, snd (check_args label_type a ws) <> Raise (DeepchecksValueError msg)) /\
  ((label_type (dataset a) <> RECOMMENDETION -> item_dataset a = None) ->
   (label_type (dataset a) = RECOMMENDETION -> model_classes a = None) ->
   let warned :=
     (ws ++ deprecation "y_proba_train is deprecated, please use y_proba instead."
         :: ignored_warnings a)%list in
   check_args label_type a ws = (warned, Ok (None, Some pt)) /\
   Forall (fun w => w_category w = DeprecationWarning) (ignored_warnings a) /\
   run label_type new_context run_logic finalize_check_result context_type a ws
     = w_bind (new_context (context_kwargs label_type context_type a None (Some pt)))
         (fun context =>
            w_bind (run_logic context TRAIN)
              (fun result =>
                 w_bind (finalize_check_result context result TRAIN)
                   (fun _ => w_ret result))) warned /\
   (label_type (dataset a) <> RECOMMENDETION ->
    k_y_proba_train (context_kwargs label_type context_type a None (Some pt)) = Some pt)).
Proof.
  intros Hpt Hp Hyt Hy.
  pose proof (check_args_proba_conflict a pt p ws Hpt Hp Hyt Hy) as Hc.
  split.
  - intros msg. rewrite Hc. repeat case_match; simpl; discriminate.
  - intros Hitem Hclasses.
    assert (Hc' : check_args label_type a ws
                  = ((ws ++ deprecation "y_proba_train is deprecated, please use y_proba instead."
                         :: ignored_warnings a)%list, Ok (None, Some pt))).
    { rewrite Hc.
      destruct (decide (label_type (dataset a) = RECOMMENDETION)) as [Hrec|Hrec].
      - rewrite (Hclasses Hrec).
        rewrite (bool_decide_eq_false_2 (label_type (dataset a) <> RECOMMENDETION)) by tauto.
        rewrite (bool_decide_eq_false_2 (is_Some None)) by (intros [? [=]]).
        rewrite andb_false_r. reflexivity.
      - rewrite (Hitem Hrec).
        rewrite (bool_decide_eq_false_2 (label_type (dataset a) = RECOMMENDETION)) by tauto.
        rewrite (bool_decide_eq_false_2 (is_Some None)) by (intros [? [=]]).
        rewrite andb_false_r. reflexivity. }
    cbv zeta. split; [exact Hc'|]. split; [apply ignored_warnings_deprecation|]. split.
    + unfold run, mbind, W_bind, w_bind at 1. rewrite Hc'. reflexivity.
    + intros Hrec. unfold context_kwargs.
      destruct (decide (label_type (dataset a) = RECOMMENDETION)); [contradiction|].
      reflexivity.
Qed.

End Run.

(** The theorem for C10 at a tabular run given both [y_proba_train] and
    [y_proba]: one deprecation warning, no error, and the context is built
    with the deprecated argument's value. *)
Lemma proba_conflict_is_not_rejected_witness :
  check_args id Fixtures.run_args_both_probas []
  = ([deprecation "y_proba_train is deprecated, please use y_proba instead."],
     Ok (None, Some [1 # 4; 3 # 4]%Q)) /\
  run id (fun kwargs ws => (ws, Ok kwargs)) (fun _ _ ws => (ws, Ok tt))
      (fun _ _ _ ws => (ws, Ok tt)) None Fixtures.run_args_both_probas []
  = ([deprecation "y_proba_train is deprecated, please use y_proba instead."], Ok tt).
Proof.
  destruct (proj2 (proba_conflict_is_not_rejected id
                     (fun kwargs ws => (ws, Ok kwargs)) (fun _ _ ws => (ws, Ok tt))
                     (fun _ _ _ ws => (ws, Ok tt)) None Fixtures.run_args_both_probas
                     [1 # 4; 3 # 4]%Q [1 # 2; 1 # 2]%Q [] eq_refl eq_refl eq_refl eq_refl)
              (fun _ => eq_refl) (fun _ => eq_refl))
    as (Hargs & _ & Hrun & _).
  split; [exact Hargs|]. rewrite Hrun. reflexivity.
Defined.

End BaseChecksFacts.

(** * Facts that span both checks *)

Module ChecksFacts.






(** The conflicting-labels check samples with its own seed, and is just as
    reproducible. *)
Lemma conflicting_labels_runs_are_reproducible D self context kind t g1 g2 :
  (forall td n seed ga gb,
     ConflictingLabels.sample D td n seed ga = ConflictingLabels.sample D td n seed gb) ->
  snd (ConflictingLabels.run_logic D self context kind (mkWorld g1 t))
    = snd (ConflictingLabels.run_logic D self context kind (mkWorld g2 t)) /\
  exists evs,
    trace (fst (ConflictingLabels.run_logic D self context kind (mkWorld g1 t)))
      = (t ++ evs)%list /\
    forall n seed, EvSample n seed ∈ evs ->
      n = ConflictingLabels.n_samples self /\ seed = ConflictingLabels.random_state self.
Proof.
  intros Hseed.
  split; [apply ConflictingLabelsFacts.labels_run_deterministic; exact Hseed|].
  destruct (ConflictingLabelsFacts.labels_run_emits D self context kind (mkWorld g1 t) _ _
              (surjective_pairing _)) as (evs & Ht & Hall).
  exists evs. split; [exact Ht|].
  intros n seed Hin. rewrite Forall_forall in Hall. exact (Hall _ Hin).
Qed.

End ChecksFacts.

(** * More facts about the conflicting-labels check *)

Module ConflictingLabelsMore.
Import ConflictingLabels.

Lemma zip_rows_spec hashes ids labels texts df :
  zip_rows hashes ids labels texts = Ok df ->
  map row_hash df = hashes /\ map row_sample_id df = ids /\
  map row_label df = labels /\ map row_text df = texts.
Proof.
  revert ids labels texts df.
  induction hashes as [|h hs IH]; intros [|i is_] [|l ls] [|t ts] df H;
    simpl in H; try discriminate.
  - injection H as <-. auto.
  - destruct (zip_rows hs is_ ls ts) as [rows|e] eqn:Hz; [|discriminate].
    injection H as <-. destruct (IH _ _ _ _ Hz) as (H1 & H2 & H3 & H4). simpl.
    rewrite H1, H2, H3, H4. auto.
Qed.



(** What a successful run computed. *)
Lemma run_logic_ok_inv D self context kind w w' res :
  run_logic D self context kind w = (w', Ok res) ->
  exists td0 g1 td g2 normalized g3 hashes labels df,
    get_data_by_kind D context kind = Ok td0 /\
    sample D td0 (n_samples self) (random_state self) (ambient w) = (g1, Ok td) /\
    td_text td <> [] /\
    normalize_samples D (td_text td) self g1 = (g2, Ok normalized) /\
    hash_samples D normalized g2 = (g3, Ok hashes) /\
    zip_rows hashes (td_index td) labels (td_text td) = Ok df /\
    result_value res =
      {| percent_of_conflicting_samples :=
           (inject_Z (Z.of_nat (length (List.filter (is_ambiguous df) df)))
            / inject_Z (Z.of_nat (length (td_text td))))%Q;
         conflicting_samples :=
           map (fun r => mkResultRow
                           (to_ordional_enumeration D
                              (map row_hash (List.filter (is_ambiguous df) df)) (row_hash r))
                           (row_sample_id r) (row_label r) (row_text r))
               (List.filter (is_ambiguous df) df) |} /\
    (ctx_with_display context = false -> result_display res = None /\
       trace w' = (trace w ++ [EvSample (n_samples self) (random_state self);
                               EvNormalizeSamples; EvHashSamples; EvGroupBy])%list) /\
    (ctx_with_display context = true ->
       exists g4 table,
         display_table D self (List.filter (is_ambiguous df) df) g3 = (g4, Ok table) /\
         exists description note,
           result_display res = Some (description, note, iloc_slice (n_to_show self) table) /\
           note = if decide (n_to_show self <= Z.of_nat (length table))
                  then "Showing top " ++ pretty (n_to_show self) ++ " of "
                       ++ pretty (length table)
                  else "").
Proof.
  unfold run_logic. intros H.
  apply bind_inv in H as [(? & _ & [=])|(td0 & w0 & H0 & H)].
  apply lift_inv in H0 as [-> Hd].
  apply bind_inv in H as [(? & _ & [=])|(td & w1 & H0 & H)].
  apply call_inv in H0 as (g1 & Hs & ->).
  cbv zeta in H.
  destruct (decide (length (td_text td) = 0%nat)) as [|Hne]; [discriminate H|].
  apply bind_inv in H as [(? & _ & [=])|(normalized & w2 & H0 & H)].
  apply call_inv in H0 as (g2 & Hn & ->).
  apply bind_inv in H as [(? & _ & [=])|(hashes & w3 & H0 & H)].
  apply call_inv in H0 as (g3 & Hh & ->).
  apply bind_inv in H as [(? & _ & [=])|(labels & w4 & Hl & H)].
  assert (w4 = {| ambient := g3;
                  trace := ((trace w ++ [EvSample (n_samples self) (random_state self)])
                            ++ [EvNormalizeSamples]) ++ [EvHashSamples] |}) as ->.
  { destruct (_ || _); [apply lift_inv in Hl as [-> _]; reflexivity|].
    destruct (bool_decide _); [injection Hl as <- _; reflexivity|discriminate Hl]. }
  clear Hl.
  apply bind_inv in H as [(? & _ & [=])|(df & w5 & H0 & H)].
  apply lift_inv in H0 as [-> Hz].
  apply bind_inv in H as [(? & _ & [=])|(amb & w6 & H0 & H)].
  apply call_inv in H0 as (g4 & Ha & ->). injection Ha as <- <-. simpl in H.
  exists td0, g1, td, g2, normalized, g3, hashes, labels, df.
  split; [symmetry; exact Hd|]. repeat (split; [first [assumption | symmetry; assumption]|]).
  split; [intros Ht; apply Hne; rewrite Ht; reflexivity|].
  split; [assumption|]. split; [assumption|]. split; [symmetry; exact Hz|].
  destruct (ctx_with_display context); simpl in H.
  - apply bind_inv in H as [(? & _ & [=])|(table & w7 & H0 & H)].
    apply call_inv in H0 as (g5 & Ht & ->). injection H as <- <-. simpl.
    split; [reflexivity|]. split; [discriminate|]. intros _. eauto 10.
  - injection H as <- <-. simpl. split; [reflexivity|]. split; [|discriminate].
    intros _. split; [reflexivity|]. rewrite <- !app_assoc. reflexivity.
Qed.

Lemma ratio_in_unit_interval (a b : nat) :
  (a <= b)%nat -> (0 < b)%nat ->
  (0 <= inject_Z (Z.of_nat a) / inject_Z (Z.of_nat b) <= 1)%Q.
Proof.
  intros Hab Hb.
  assert (Hpos : (0 < inject_Z (Z.of_nat b))%Q).
  { change 0%Q with (inject_Z 0). rewrite <- Zlt_Qlt. lia. }
  split.
  - apply Qle_shift_div_l; [exact Hpos|]. rewrite Qmult_0_l.
    change 0%Q with (inject_Z 0). rewrite <- Zle_Qle. lia.
  - apply Qle_shift_div_r; [exact Hpos|]. rewrite Qmult_1_l.
    rewrite <- Zle_Qle. lia.
Qed.

(** X1.  On every successful run the reported share of conflicting samples
    lies between 0 and 1. *)
Theorem percent_of_conflicting_samples_is_a_share D self context kind w w' res :
  run_logic D self context kind w = (w', Ok res) ->
  (0 <= percent_of_conflicting_samples (result_value res) <= 1)%Q.
Proof.
  intros H.
  apply run_logic_ok_inv in H
    as (td0 & g1 & td & g2 & nrm & g3 & hashes & labels & df & _ & _ & Hne & _ & _
        & Hz & -> & _).
  simpl. apply zip_rows_spec in Hz as (_ & _ & _ & Ht).
  rewrite <- Ht, length_map. apply ratio_in_unit_interval.
  - generalize (is_ambiguous df). clear. intros f.
    induction df as [|r df IH]; simpl; [lia|]. destruct (f r); simpl; lia.
  - destruct df; [simpl in Ht; congruence|simpl; lia].
Qed.


(** X3.  A sampled dataset that is neither a token nor a text classification
    task (and not multi-label) ends the run with the "Unknow task type"
    error; it is raised after all texts were normalised and hashed, and
    before any grouping. *)
Theorem unknown_task_type_is_rejected_after_hashing
    D self context kind w td0 g1 td g2 normalized g3 hashes :
  get_data_by_kind D context kind = Ok td0 ->
  sample D td0 (n_samples self) (random_state self) (ambient w) = (g1, Ok td) ->
  td_text td <> [] ->
  td_task_type td = OTHER -> td_multi_label td = false ->
  normalize_samples D (td_text td) self g1 = (g2, Ok normalized) ->
  hash_samples D normalized g2 = (g3, Ok hashes) ->
  run_logic D self context kind w
  = (mkWorld g3 (trace w ++ [EvSample (n_samples self) (random_state self);
                             EvNormalizeSamples; EvHashSamples]),
     Raise (DeepchecksValueError "Unknow task type - TaskType.OTHER")).
Proof.
  intros Hd Hs Hne Ht Hm Hn Hh.
  unfold run_logic, mbind, M_bind, bind, lift, call. rewrite Hd. simpl. rewrite Hs.
  destruct (decide (length (td_text td) = 0%nat)) as [Hz|_].
  { destruct (td_text td); [congruence|discriminate Hz]. }
  simpl. rewrite Hn. simpl. rewrite Hh. simpl. rewrite Ht, Hm. simpl.
  rewrite <- !app_assoc. reflexivity.
Qed.



(** X1 on the four reviews: two of them conflict, the share is a half. *)
Lemma percent_of_conflicting_samples_is_a_share_witness :
  exists res,
    snd (run_logic Fixtures.cl_deps Examples.check_labels Examples.context_shown TRAIN
           Fixtures.w0) = Ok res /\
    (0 <= percent_of_conflicting_samples (result_value res) <= 1)%Q.
Proof.
  eexists. split; [vm_compute; reflexivity|].
  apply (percent_of_conflicting_samples_is_a_share Fixtures.cl_deps Examples.check_labels
           Examples.context_shown TRAIN Fixtures.w0 _ _ ltac:(vm_compute; reflexivity)).
Defined.


(** X3 on the reviews taken as a dataset of another task type. *)
Lemma unknown_task_type_is_rejected_after_hashing_witness :
  run_logic Fixtures.cl_deps Examples.check_labels Examples.context_other_shown TRAIN
    Fixtures.w0
  = (mkWorld 7 [EvSample 10 7; EvNormalizeSamples; EvHashSamples],
     Raise (DeepchecksValueError "Unknow task type - TaskType.OTHER")).
Proof.
  apply (unknown_task_type_is_rejected_after_hashing Fixtures.cl_deps Examples.check_labels
           Examples.context_other_shown TRAIN Fixtures.w0 Examples.reviews_other 7
           (Fixtures.head_rows 10 Examples.reviews_other) 7
           ["good film"; "bad film"; "fine"; "dull"] 7 [9; 8; 4; 4]);
    vm_compute; (reflexivity || discriminate).
Defined.


End ConflictingLabelsMore.

(** * More facts about the weak-segments check *)

Module WeakSegmentsMore.
Import WeakSegments WeakSegmentsFacts.

(** Indexing succeeds exactly when every position exists, and then returns
    the elements at these positions, in order. *)
Lemma getitem_ok_iff arr index sps :
  getitem arr index = Ok sps <-> Forall2 (fun i x => arr !! i = Some x) index sps.
Proof.
  revert sps. induction index as [|i rest IH]; intros sps; simpl.
  - split; [intros [= <-]; constructor|intros H; inversion H; reflexivity].
  - destruct (arr !! i) as [x|] eqn:Hi.
    + destruct (getitem arr rest) as [xs|e]; split.
      * intros [= <-]. constructor; [assumption|]. apply IH. reflexivity.
      * intros H. inversion H as [|? y ? ys Hy Hr]; subst.
        apply IH in Hr. congruence.
      * discriminate.
      * intros H. inversion H as [|? y ? ys Hy Hr]; subst. apply IH in Hr. discriminate.
    + split; [discriminate|]. intros H. inversion H; congruence.
Qed.


(** What a successful [finish] did. *)
Lemma finish_ok_inv D self context enc cat sps dm sc avg segs w w' res :
  finish D self context enc cat sps dm sc avg segs w = (w', Ok res) ->
  segs <> [] /\
  exists disp w1 g2,
    (if ctx_with_display context
     then exists g1,
            create_heatmap_display D self (ds_data enc) segs sps avg (ds_label_col enc)
              dm sc (ambient w) = (g1, Ok disp) /\
            w1 = mkWorld g1 (trace w ++ [EvHeatmapDisplay])
     else disp = [] /\ w1 = w) /\
    format_weak_segments D self segs cat (ambient w1)
      = (g2, Ok (weak_segments_list (value res))) /\
    w' = mkWorld g2 (trace w1 ++ [EvGenerateValue]) /\
    display_map res = disp /\
    display_msg res = msg_display (segment_by self).
Proof.
  unfold finish. intros H.
  destruct (decide (length segs = 0%nat)) as [|Hne]; [discriminate H|].
  split; [intros ->; apply Hne; reflexivity|].
  apply bind_inv in H as [(? & _ & [=])|(disp & w1 & Hd & H)].
  apply bind_inv in H as [(? & _ & [=])|(v & w2 & Hv & H)].
  injection H as <- <-. simpl.
  apply call_inv in Hv as (g2 & Hv & ->). unfold generate_check_result_value in Hv.
  destruct (format_weak_segments D self segs cat (ambient w1))
    as [g' [recs|e]] eqn:Hf; [|discriminate Hv].
  injection Hv as <- <-. simpl.
  exists disp, w1, g'. split; [|auto].
  destruct (ctx_with_display context).
  - apply call_inv in Hd as (g1 & Hd & ->). eauto.
  - injection Hd as <- <-. auto.
Qed.

(** X5.  On a successful run with caller-supplied scores the search received
    one score per row of the feature table: the k-th score is the given
    score at the position named by the k-th row label. *)
Theorem search_gets_one_score_per_row D self context kind given w w' res :
  score_per_sample self = Some given ->
  run_logic D self context kind w = (w', Ok res) ->
  exists p w1 sps post,
    prepare D self context kind w = (w1, Ok p) /\
    trace w' = (trace w1 ++ EvWeakSegmentsSearch sps false :: post)%list /\
    length sps = length (df_index (features p)) /\
    forall k i, df_index (features p) !! k = Some i ->
      is_Some (given !! i) /\ sps !! k = given !! i.
Proof.
  intros Hg H.
  pose proof H as Hrun.
  apply run_logic_inv in H as [(e & _ & [=])|(p & w1 & Hp & H)].
  destruct H as [(e & _ & [=])|(sps & dm & sc & avg & w2 & g & sr & Hb & _)].
  destruct (score_branch_given _ _ _ _ _ _ _ _ _ _ Hg Hb) as [-> Hres].
  destruct (getitem given (df_index (features p))) as [sps'|] eqn:Hget; [|discriminate].
  injection Hres as -> _ _ _.
  destruct (given_scores_reach_search _ _ _ _ _ _ _ _ _ _ _ Hg Hp Hget Hrun) as (post & Ht).
  exists p, w1, sps', post. split; [assumption|]. split; [assumption|].
  apply getitem_ok_iff in Hget. split.
  - symmetry. eapply Forall2_length. exact Hget.
  - intros k i Hk.
    destruct (Forall2_lookup_l _ _ _ _ _ Hget Hk) as (x & Hx & Hix).
    rewrite Hx, Hix. eauto.
Qed.


(** X7.  A successful run always reports a non-empty search result: its
    segment records are the formatted segments the search returned, of which
    there is at least one, and its message names what was segmented by. *)
Theorem success_reports_found_segments D self context kind w w' res :
  run_logic D self context kind w = (w', Ok res) ->
  exists p w1 sps dm sc g1 g2 segs g3 g4,
    prepare D self context kind w = (w1, Ok p) /\
    weak_segments_search D self (ds_data (encoded_dataset p)) sps
      (ds_label_col (encoded_dataset p)) (ds_features (encoded_dataset p)) dm sc g1
      = (g2, Ok segs) /\
    segs <> [] /\
    format_weak_segments D self segs (cat_features p) g3
      = (g4, Ok (weak_segments_list (value res))) /\
    display_msg res = msg_display (segment_by self).
Proof.
  intros H.
  apply run_logic_inv in H as [(e & _ & [=])|(p & w1 & Hp & H)].
  destruct H as [(e & _ & [=])|(sps & dm & sc & avg & w2 & g & sr & _ & Hw & H)].
  destruct sr as [segs|e]; [|destruct H as [_ [=]]].
  apply finish_ok_inv in H as (Hne & disp & w3 & g4 & _ & Hf & _ & _ & Hmsg).
  exists p, w1, sps, dm, sc, (ambient w2), g, segs, (ambient w3), g4. auto.
Qed.

(** X8.  The heatmap is built only when the context asks for display.  With
    display off no run calls the heatmap builder and a successful run
    carries an empty display map; with display on, a successful run called
    it once the segments were found. *)
Theorem heatmap_only_with_display D self context kind w w' r :
  run_logic D self context kind w = (w', r) ->
  exists evs,
    trace w' = (trace w ++ evs)%list /\
    if ctx_with_display context
    then forall res, r = Ok res -> EvHeatmapDisplay ∈ evs
    else (EvHeatmapDisplay ∉ evs) /\ forall res, r = Ok res -> display_map res = [].
Proof.
  intros H.
  assert (Hquiet : forall (P : Event -> Prop) evs,
            Forall P evs -> ~ P EvHeatmapDisplay -> EvHeatmapDisplay ∉ evs).
  { intros P evs Hall Hn. eapply Forall_not_elem; eassumption. }
  apply run_logic_inv in H as [(e & Hp & ->)|(p & w1 & Hp & H)].
  { destruct (prepare_emits _ _ _ _ _ _ _ Hp) as (pre & Hpre & Hall).
    exists pre. split; [assumption|].
    destruct (ctx_with_display context); [discriminate|].
    split; [eapply Hquiet; [exact Hall|]; simpl; tauto|discriminate]. }
  destruct (prepare_emits _ _ _ _ _ _ _ Hp) as (pre & Hpre & Hall).
  destruct H as [(e & Hb & ->)|(sps & dm & sc & avg & w2 & g & sr & Hb & _ & H)];
    destruct (score_branch_emits _ _ _ _ _ _ _ _ _ Hb) as (mid & Hmid & Hall').
  { exists (pre ++ mid)%list. split; [rewrite Hmid, Hpre, <- app_assoc; reflexivity|].
    destruct (ctx_with_display context); [discriminate|].
    split; [|discriminate]. intros Hin. apply elem_of_app in Hin as [Hin|Hin];
      (eapply Hquiet; [| |exact Hin]; [eassumption|]); simpl; tauto. }
  destruct sr as [segs|e].
  2:{ destruct H as [-> ->].
      exists (pre ++ mid ++ [EvWeakSegmentsSearch sps (bool_decide (is_Some dm))])%list.
      split; [simpl; rewrite Hmid, Hpre, <- !app_assoc; reflexivity|].
      destruct (ctx_with_display context); [discriminate|].
      split; [|discriminate]. intros Hin.
      apply elem_of_app in Hin as [Hin|Hin];
        [eapply Hquiet; [exact Hall| |exact Hin]; simpl; tauto|].
      apply elem_of_app in Hin as [Hin|Hin];
        [eapply Hquiet; [exact Hall'| |exact Hin]; simpl; tauto|].
      apply list_elem_of_singleton in Hin. discriminate Hin. }
  destruct r as [res|e].
  - apply finish_ok_inv in H as (_ & disp & w3 & g4 & Hd & _ & -> & Hdm & _).
    destruct (ctx_with_display context).
    + destruct Hd as (g1 & _ & ->).
      eexists. split; [simpl; rewrite Hmid, Hpre, <- !app_assoc; reflexivity|].
      intros _ _. rewrite !elem_of_app. right. right. simpl.
      rewrite !elem_of_cons. auto.
    + destruct Hd as [-> ->].
      eexists. split; [simpl; rewrite Hmid, Hpre, <- !app_assoc; reflexivity|].
      split; [|intros ? [= <-]; assumption].
      intros Hin.
      apply elem_of_app in Hin as [Hin|Hin];
        [eapply Hquiet; [exact Hall| |exact Hin]; simpl; tauto|].
      apply elem_of_app in Hin as [Hin|Hin];
        [eapply Hquiet; [exact Hall'| |exact Hin]; simpl; tauto|].
      repeat (apply elem_of_cons in Hin as [Hin|Hin]; [discriminate Hin|]).
      apply elem_of_nil in Hin. exact Hin.
  - destruct (ctx_with_display context) eqn:Hdisp.
    + destruct (finish_emits _ _ _ _ _ _ _ _ _ _ _ _ _ H) as (post & Hpost & _).
      eexists. split; [rewrite Hpost; simpl; rewrite Hmid, Hpre, <- !app_assoc; reflexivity|].
      discriminate.
    + unfold finish in H. rewrite Hdisp in H.
      assert (Hfin : emits (fun ev => match ev with EvHeatmapDisplay => False | _ => True end)
                (if decide (length segs = 0%nat)
                 then raise (DeepchecksProcessError (msg_no_segments (segment_by self)))
                 else
                   display ← mret [];
                   check_result_value ←
                     call EvGenerateValue
                       (generate_check_result_value D self segs (cat_features p) avg);
                   mret {| value := check_result_value;
                           display_msg := msg_display (segment_by self);
                           display_map := display |})) by emits_walk.
      destruct (Hfin _ _ _ H) as (post & Hpost & Hall'').
      eexists. split; [rewrite Hpost; simpl; rewrite Hmid, Hpre, <- !app_assoc; reflexivity|].
      split; [|discriminate]. intros Hin.
      apply elem_of_app in Hin as [Hin|Hin];
        [eapply Hquiet; [exact Hall| |exact Hin]; simpl; tauto|].
      apply elem_of_app in Hin as [Hin|Hin];
        [eapply Hquiet; [exact Hall'| |exact Hin]; simpl; tauto|].
      apply elem_of_cons in Hin as [Hin|Hin]; [discriminate Hin|].
      eapply Hquiet; [exact Hall''| |exact Hin]. simpl. tauto.
Qed.

(** X5 on the four reviews with four given scores and a sample of three. *)
Lemma search_gets_one_score_per_row_witness :
  exists p w1 sps post,
    prepare Fixtures.deps Fixtures.check_given Fixtures.context_with_proba TRAIN Fixtures.w0
    = (w1, Ok p) /\
    trace (fst (run_logic Fixtures.deps Fixtures.check_given Fixtures.context_with_proba
                  TRAIN Fixtures.w0))
    = (trace w1 ++ EvWeakSegmentsSearch sps false :: post)%list /\
    length sps = length (df_index (features p)) /\
    forall k i, df_index (features p) !! k = Some i ->
      is_Some (Fixtures.given_scores !! i) /\ sps !! k = Fixtures.given_scores !! i.
Proof.
  apply (search_gets_one_score_per_row Fixtures.deps Fixtures.check_given
           Fixtures.context_with_proba TRAIN Fixtures.given_scores Fixtures.w0 _ _ eq_refl
           ltac:(vm_compute; reflexivity)).
Defined.


(** X7 on the four reviews. *)
Lemma success_reports_found_segments_witness :
  exists res,
    snd (run_logic Fixtures.deps Fixtures.check_given Fixtures.context_with_proba TRAIN
           Fixtures.w0) = Ok res /\
    exists p sps dm sc g1 g2 segs g3 g4,
      weak_segments_search Fixtures.deps Fixtures.check_given (ds_data (encoded_dataset p))
        sps (ds_label_col (encoded_dataset p)) (ds_features (encoded_dataset p)) dm sc g1
      = (g2, Ok segs) /\
      segs <> [] /\
      format_weak_segments Fixtures.deps Fixtures.check_given segs (cat_features p) g3
      = (g4, Ok (weak_segments_list (value res))).
Proof.
  eexists. split; [vm_compute; reflexivity|].
  destruct (success_reports_found_segments Fixtures.deps Fixtures.check_given
              Fixtures.context_with_proba TRAIN Fixtures.w0 _ _
              ltac:(vm_compute; reflexivity))
    as (p & w1 & sps & dm & sc & g1 & g2 & segs & g3 & g4 & _ & Hsearch & Hne & Hfmt & _).
  exists p, sps, dm, sc, g1, g2, segs, g3, g4. auto.
Defined.

(** X8 on a run with display: the heat map is drawn. *)
Lemma heatmap_only_with_display_witness :
  exists evs,
    trace (fst (run_logic Fixtures.deps Fixtures.check_given Examples.context_shown TRAIN
                  Fixtures.w0)) = (trace Fixtures.w0 ++ evs)%list /\
    EvHeatmapDisplay ∈ evs.
Proof.
  destruct (heatmap_only_with_display Fixtures.deps Fixtures.check_given
              Examples.context_shown TRAIN Fixtures.w0 _ _ (surjective_pairing _))
    as (evs & Ht & Hmap).
  exists evs. split; [exact Ht|].
  cbv beta iota delta [Examples.context_shown Fixtures.context_of ctx_with_display] in Hmap.
  eapply Hmap. vm_compute. reflexivity.
Defined.

End WeakSegmentsMore.

(** * More facts about the recommender model wrapper *)

Module RecModelFacts.
Import RecContext RecContextFacts RecModel.

Lemma prefixed_labels_differ a b :
  common_index (map train_prefixed a) (map test_prefixed b) = false.
Proof.
  apply not_true_is_false. intros H.
  apply existsb_exists in H as (x & Hx & Hin).
  apply bool_decide_eq_true in Hin.
  apply in_map_iff in Hx as (a0 & <- & _).
  apply list_elem_of_In, in_map_iff in Hin as (b0 & Hb & _).
  unfold train_prefixed, test_prefixed in Hb. simpl in Hb. discriminate Hb.
Qed.

Lemma prefix_separates tr te st :
  data tr <> data te ->
  common_index
    (index (get_frame (heap (prefix_common_indexes (Some tr) (Some te) st)) (data tr)))
    (index (get_frame (heap (prefix_common_indexes (Some tr) (Some te) st)) (data te)))
  = false.
Proof.
  intros Hne. unfold prefix_common_indexes.
  destruct (common_index (index (get_frame (heap st) (data tr)))
              (index (get_frame (heap st) (data te)))) eqn:Hc; [|exact Hc].
  apply common_index_allocated in Hc as [Htr Hte]. simpl.
  rewrite (get_frame_set_index_ne _ (data te) (data tr)) by auto.
  rewrite index_set_index_eq by assumption.
  rewrite index_set_index_eq by (apply set_index_allocated; assumption).
  rewrite get_frame_set_index_ne by assumption.
  apply prefixed_labels_differ.
Qed.

(** X9.  Once the wrapper is built from a train and a test dataset that
    hold different frames, the two indexes have no label in common, whether
    or not they had one before. *)
Theorem init_separates_the_indexes tr te y_pred_train y_pred_test validate st :
  data tr <> data te ->
  common_index
    (index (get_frame (heap (fst (init (Some tr) (Some te) y_pred_train y_pred_test
                                    validate st))) (data tr)))
    (index (get_frame (heap (fst (init (Some tr) (Some te) y_pred_train y_pred_test
                                    validate st))) (data te)))
  = false.
Proof. intros Hne. rewrite init_state. apply prefix_separates. exact Hne. Qed.

Lemma collect_spec h dataset y_pred acc acc' :
  collect h dataset y_pred acc = Ok acc' ->
  match dataset with
  | None => acc' = acc
  | Some ds =>
      fst acc' = (fst acc ++ [features_columns h ds])%list /\
      match y_pred with
      | None => snd acc' = snd acc
      | Some y =>
          length y = length (index (get_frame h (data ds))) /\
          snd acc' = (snd acc ++ [zip (index (get_frame h (data ds))) y])%list
      end
  end.
Proof.
  unfold collect, new_series. destruct dataset as [ds|]; [|intros [= <-]; reflexivity].
  destruct y_pred as [y|]; [|intros [= <-]; auto].
  destruct (decide (length y = length (index (get_frame h (data ds))))) as [Hl|];
    [|discriminate].
  intros [= <-]. auto.
Qed.

Lemma collect_counts h dataset y_pred acc acc' :
  collect h dataset y_pred acc = Ok acc' ->
  length (fst acc') = (length (fst acc) + length (option_list dataset))%nat /\
  (snd acc' <> [] <-> snd acc <> [] \/ (is_Some dataset /\ is_Some y_pred)).
Proof.
  intros H. apply collect_spec in H.
  destruct dataset as [ds|]; simpl.
  - destruct H as [Hf Hs]. rewrite Hf, length_app. split; [reflexivity|].
    destruct y_pred as [y|].
    + destruct Hs as [_ ->]. split; [eauto|].
      intros _ Hnil. apply app_eq_nil in Hnil as [_ [=]].
    + rewrite Hs. split; [auto|]. intros [?|[_ [? [=]]]]. assumption.
  - subst acc'. split; [lia|]. split; [auto|]. intros [?|[[? [=]] _]]. assumption.
Qed.

(** X10.  A wrapper that was built has one feature frame per dataset
    given, and it has a [predict] attribute exactly when predictions were
    given for a dataset that was given. *)
Theorem predict_exists_iff_predictions_given
    train test y_pred_train y_pred_test validate st st' m :
  init train test y_pred_train y_pred_test validate st = (st', Ok m) ->
  length (feature_df_list m)
    = (length (option_list train) + length (option_list test))%nat /\
  (has_predict m = true <->
   (is_Some train /\ is_Some y_pred_train) \/ (is_Some test /\ is_Some y_pred_test)) /\
  (has_predict m = false <-> predictions m = None).
Proof.
  unfold init. set (st1 := prefix_common_indexes train test st).
  destruct (collect (heap st1) train y_pred_train ([], [])) as [[dfs1 ps1]|e] eqn:H1;
    [|discriminate].
  destruct (collect (heap st1) test y_pred_test (dfs1, ps1)) as [[dfs2 ps2]|e] eqn:H2;
    [|discriminate].
  intros [= _ <-]. simpl.
  apply collect_counts in H1 as [Hl1 Hp1], H2 as [Hl2 Hp2]. simpl in *.
  split; [lia|].
  assert (Hps : ps2 <> [] <->
                (is_Some train /\ is_Some y_pred_train)
                \/ (is_Some test /\ is_Some y_pred_test)).
  { rewrite Hp2, Hp1. split; [intros [[[]|?]|?]; auto|intros [?|?]; auto]. }
  rewrite <- Hps. destruct ps2 as [|p ps]; simpl.
  - split; split; try discriminate; try reflexivity. intros Hne. contradiction.
  - split; split; try discriminate; reflexivity.
Qed.

Lemma entries_at_unique (s : Series) x v :
  NoDup (map fst s) -> (x, v) ∈ s -> entries_at s x = [v].
Proof.
  unfold entries_at. induction s as [|[k u] s IH]; intros Hnd Hin.
  - apply elem_of_nil in Hin. contradiction.
  - simpl in Hnd. apply NoDup_cons in Hnd as [Hk Hnd]. simpl.
    apply elem_of_cons in Hin as [[= <- <-]|Hin].
    + rewrite bool_decide_eq_true_2 by reflexivity. simpl. f_equal.
      clear IH Hnd. induction s as [|[k' u'] s IH]; [reflexivity|]. simpl in *.
      rewrite bool_decide_eq_false_2.
      * apply IH. intros H. apply Hk. right. exact H.
      * intros <-. apply Hk. left.
    + rewrite bool_decide_eq_false_2; [apply IH; assumption|].
      intros ->. apply Hk. apply list_elem_of_In, in_map_iff.
      exists (x, v). split; [reflexivity|]. apply list_elem_of_In. exact Hin.
Qed.

(** Looking up the labels of entries of a series with distinct labels
    returns the values of these entries. *)
Lemma series_loc_entries (s part : Series) :
  NoDup (map fst s) -> (forall e, e ∈ part -> e ∈ s) ->
  series_loc s (map fst part) = Ok (map snd part).
Proof.
  intros Hnd. induction part as [|[x v] part IH]; intros Hsub; [reflexivity|].
  simpl. rewrite (entries_at_unique s x v Hnd) by (apply Hsub; left).
  rewrite IH by (intros e He; apply Hsub; right; exact He). reflexivity.
Qed.

Lemma prefix_keeps_labels_distinct train test st addr :
  NoDup (map str (index (get_frame (heap st) addr))) ->
  NoDup (index (get_frame (heap (prefix_common_indexes train test st)) addr)).
Proof.
  intros Hnd.
  assert (Hplain : NoDup (index (get_frame (heap st) addr))).
  { eapply NoDup_fmap_1. exact Hnd. }
  assert (Hpre : forall p ix, NoDup (map str ix) ->
                   NoDup (map (fun x => IStr (p ++ str x)) ix)).
  { intros p ix H. rewrite <- (map_map str (fun s => IStr (p ++ s))).
    apply NoDup_fmap_2; [|exact H].
    intros a b [= Hab]. induction p as [|c p IHp]; simpl in Hab; [assumption|].
    injection Hab as Hab. auto. }
  assert (Hstr : forall p ix, NoDup (map str ix) ->
                   NoDup (map str (map (fun x => IStr (p ++ str x)) ix))).
  { intros p ix H. rewrite map_map. simpl.
    rewrite <- (map_map str (fun s => p ++ s)).
    apply NoDup_fmap_2; [|exact H].
    intros a b Hab. induction p as [|c p IHp]; simpl in Hab; [assumption|].
    injection Hab as Hab. auto. }
  unfold prefix_common_indexes.
  destruct train as [tr|]; [|exact Hplain]. destruct test as [te|]; [|exact Hplain].
  destruct (common_index _ _) eqn:Hc; [|exact Hplain].
  apply common_index_allocated in Hc as [Htr Hte]. simpl.
  destruct (decide (data te = addr)) as [<-|Hte'].
  - rewrite index_set_index_eq by (apply set_index_allocated; assumption).
    apply Hpre.
    destruct (decide (data tr = data te)) as [Heq|Hne].
    + rewrite Heq, index_set_index_eq by assumption. apply Hstr. exact Hnd.
    + rewrite get_frame_set_index_ne by assumption. exact Hnd.
  - rewrite get_frame_set_index_ne by assumption.
    destruct (decide (data tr = addr)) as [<-|Htr'].
    + rewrite index_set_index_eq by assumption. apply Hpre. exact Hnd.
    + rewrite get_frame_set_index_ne by assumption. exact Hplain.
Qed.

(** X11.  With validation off, a wrapper built from train and test datasets
    on different frames, each with predictions and with row labels that
    print differently, returns the train predictions for the train frame and
    the test predictions for the test frame, whether or not the indexes
    had to be prefixed. *)
Theorem predict_returns_the_given_predictions R tr te ytr yte st st' m g :
  data tr <> data te ->
  NoDup (map str (index (get_frame (heap st) (data tr)))) ->
  NoDup (map str (index (get_frame (heap st) (data te)))) ->
  init (Some tr) (Some te) (Some ytr) (Some yte) false st = (st', Ok m) ->
  _predict R m (get_frame (heap st') (data tr)) g = (g, Ok ytr) /\
  _predict R m (get_frame (heap st') (data te)) g = (g, Ok yte).
Proof.
  intros Hne Hntr Hnte. unfold init.
  set (st1 := prefix_common_indexes (Some tr) (Some te) st).
  pose proof (prefix_separates tr te st Hne) as Hsep. fold st1 in Hsep.
  pose proof (prefix_keeps_labels_distinct (Some tr) (Some te) st (data tr) Hntr) as Hdtr.
  pose proof (prefix_keeps_labels_distinct (Some tr) (Some te) st (data te) Hnte) as Hdte.
  fold st1 in Hdtr, Hdte.
  unfold collect, new_series. simpl.
  destruct (decide (length ytr = length (index (get_frame (heap st1) (data tr)))))
    as [Hltr|]; [|discriminate].
  destruct (decide (length yte = length (index (get_frame (heap st1) (data te)))))
    as [Hlte|]; [|discriminate].
  intros [= <- <-]. unfold _predict. simpl. rewrite app_nil_r.
  set (itr := index (get_frame (heap st1) (data tr))) in *.
  set (ite := index (get_frame (heap st1) (data te))) in *.
  assert (Hkeys : NoDup (map fst (zip itr ytr ++ zip ite yte))).
  { rewrite map_app. change (map fst ?l) with (fst <$> l).
    rewrite !fst_zip by lia. apply NoDup_app. split; [exact Hdtr|]. split; [|exact Hdte].
    intros x Hx Hx'. apply not_true_iff_false in Hsep. apply Hsep.
    apply existsb_exists. exists x. rewrite <- list_elem_of_In. split; [exact Hx|].
    apply bool_decide_eq_true. exact Hx'. }
  split.
  - replace itr with (map fst (zip itr ytr)) at 2
      by (change (map fst ?l) with (fst <$> l); apply fst_zip; lia).
    rewrite (series_loc_entries _ (zip itr ytr) Hkeys)
      by (intros e He; apply elem_of_app; left; exact He).
    change (map snd ?l) with (snd <$> l). rewrite snd_zip by lia. reflexivity.
  - replace ite with (map fst (zip ite yte)) at 2
      by (change (map fst ?l) with (fst <$> l); apply fst_zip; lia).
    rewrite (series_loc_entries _ (zip ite yte) Hkeys)
      by (intros e He; apply elem_of_app; right; exact He).
    change (map snd ?l) with (snd <$> l). rewrite snd_zip by lia. reflexivity.
Qed.

(** X12.  Validation consults only the first registered frame whose index
    holds every label of the data: the frames after it are never looked
    at, so a mismatch with that frame is final. *)
Theorem validation_stops_at_first_containing_frame R data before f after g :
  Forall (fun d => issubset (index data) (index d) = false) before ->
  issubset (index data) (index f) = true ->
  validate_against R data (before ++ f :: after) g = validate_against R data [f] g.
Proof.
  intros Hbefore Hf. induction Hbefore as [|d before Hd _ IH]; simpl.
  - rewrite Hf. destruct (random_choice R (index data) 30 g) as [g' [drawn|e]];
      [|reflexivity].
    destruct (frame_loc f (np_unique R drawn)) as [a|e]; [|reflexivity].
    destruct (frame_loc data (np_unique R drawn)) as [b|e]; [|reflexivity].
    destruct (frame_equals a b); reflexivity.
  - rewrite Hd. exact IH.
Qed.

(** X13.  Data whose sampled rows carry a label that no registered frame
    holds is refused with the "not been seen before" error, before any
    prediction is looked up; with no registered frame every data is
    refused. *)
Theorem unseen_data_is_refused R self data g g' sampled :
  validate_data_on_predict self = true ->
  frame_sample R data (Nat.min 100 (length (index data))) g = (g', Ok sampled) ->
  Forall (fun d => issubset (index sampled) (index d) = false) (feature_df_list self) ->
  _validate_data R self data g = (g', Raise (DeepchecksValueError msg_unseen_data)) /\
  _predict R self data g = (g', Raise (DeepchecksValueError msg_unseen_data)).
Proof.
  intros Hv Hs Hall.
  assert (H : _validate_data R self data g
              = (g', Raise (DeepchecksValueError msg_unseen_data))).
  { unfold _validate_data. rewrite Hs.
    induction Hall as [|d dfs Hd _ IH]; simpl; [reflexivity|]. rewrite Hd. exact IH. }
  split; [exact H|]. unfold _predict. rewrite Hv, H. reflexivity.
Qed.

(** X9 on two frames that share the row label 1. *)
Lemma init_separates_the_indexes_witness :
  common_index (index Fixtures.frame_a) (index Fixtures.frame_b) = true /\
  let st' := fst (init (Some Fixtures.rec_train) (Some Fixtures.rec_test) None None true
                    (Examples.rec_state Fixtures.heap_overlapping)) in
  common_index (index (get_frame (heap st') 0)) (index (get_frame (heap st') 1)) = false.
Proof.
  split; [vm_compute; reflexivity|].
  apply (init_separates_the_indexes Fixtures.rec_train Fixtures.rec_test None None true
           (Examples.rec_state Fixtures.heap_overlapping)).
  vm_compute. discriminate.
Defined.

(** X10: a wrapper built from a train dataset and test predictions only
    gets no [predict]. *)
Lemma predict_exists_iff_predictions_given_witness :
  exists m,
    snd (init (Some Fixtures.rec_train) None None (Some [LInt 7; LInt 8]) true
           (Examples.rec_state Fixtures.heap_disjoint)) = Ok m /\
    length (feature_df_list m) = 1%nat /\ has_predict m = false /\ predictions m = None.
Proof.
  eexists. split; [vm_compute; reflexivity|].
  destruct (predict_exists_iff_predictions_given (Some Fixtures.rec_train) None None
              (Some [LInt 7; LInt 8]) true (Examples.rec_state Fixtures.heap_disjoint) _ _
              ltac:(vm_compute; reflexivity))
    as (Hlen & _ & Hnone).
  split; [exact Hlen|]. split; [reflexivity|]. apply Hnone. reflexivity.
Defined.

(** X11 on two frames that share a row label: after the rewrite each
    dataset still gets its own predictions back. *)
Lemma predict_returns_the_given_predictions_witness :
  exists st' m,
    init (Some Fixtures.rec_train) (Some Fixtures.rec_test) (Some [LInt 7; LInt 8])
      (Some [LInt 5; LInt 6]) false (Examples.rec_state Fixtures.heap_overlapping)
    = (st', Ok m) /\
    _predict Examples.rec_random m (get_frame (heap st') 0) 0 = (0, Ok [LInt 7; LInt 8]) /\
    _predict Examples.rec_random m (get_frame (heap st') 1) 0 = (0, Ok [LInt 5; LInt 6]).
Proof.
  do 2 eexists. split; [vm_compute; reflexivity|].
  apply (predict_returns_the_given_predictions Examples.rec_random Fixtures.rec_train
           Fixtures.rec_test [LInt 7; LInt 8] [LInt 5; LInt 6]
           (Examples.rec_state Fixtures.heap_overlapping)).
  - vm_compute. discriminate.
  - apply (bool_decide_unpack _). vm_compute. exact I.
  - apply (bool_decide_unpack _). vm_compute. exact I.
  - vm_compute. reflexivity.
Defined.

(** X12: the data [frame_a] against the frames [frame_c], [frame_a],
    [frame_b]. *)
Lemma validation_stops_at_first_containing_frame_witness :
  validate_against Examples.rec_random Fixtures.frame_a
    [Fixtures.frame_c; Fixtures.frame_a; Fixtures.frame_b] 0
  = validate_against Examples.rec_random Fixtures.frame_a [Fixtures.frame_a] 0.
Proof.
  apply (validation_stops_at_first_containing_frame Examples.rec_random Fixtures.frame_a
           [Fixtures.frame_c] Fixtures.frame_a [Fixtures.frame_b] 0).
  - repeat constructor.
  - vm_compute. reflexivity.
Defined.

(** X13: a wrapper that knows [frame_c] asked about [frame_a]. *)
Lemma unseen_data_is_refused_witness :
  _predict Examples.rec_random Examples.model_of_frame_c Fixtures.frame_a 0
  = (0, Raise (DeepchecksValueError msg_unseen_data)).
Proof.
  apply (unseen_data_is_refused Examples.rec_random Examples.model_of_frame_c
           Fixtures.frame_a 0 0 (take_rows Fixtures.frame_a (seq 0 2))).
  - reflexivity.
  - vm_compute. reflexivity.
  - repeat constructor.
Defined.

End RecModelFacts.

(** * Facts about the recommender context's properties *)

Module RecClassesFacts.
Import RecClasses.




Lemma value_counts_cons_some y items :
  value_counts (Some y :: items)
  = <[y := S (default 0%nat (value_counts items !! y))]> (value_counts items).
Proof. reflexivity. Qed.

Lemma value_counts_cons_none items :
  value_counts (None :: items) = value_counts items.
Proof. reflexivity. Qed.

Lemma occurrences_cons (i : option Z) items z :
  length (List.filter (fun i => bool_decide (i = Some z)) (i :: items))
  = ((if decide (i = Some z) then 1 else 0)
     + length (List.filter (fun i => bool_decide (i = Some z)) items))%nat.
Proof.
  cbn [List.filter]. destruct (decide (i = Some z)) as [H|H].
  - rewrite bool_decide_eq_true_2 by exact H. reflexivity.
  - rewrite bool_decide_eq_false_2 by exact H. reflexivity.
Qed.

Lemma value_counts_lookup items z :
  value_counts items !! z
  = match length (List.filter (fun i => bool_decide (i = Some z)) items) with
    | O => None
    | n => Some n
    end.
Proof.
  induction items as [|[y|] items IH].
  - apply lookup_empty.
  - rewrite value_counts_cons_some, occurrences_cons.
    destruct (decide (y = z)) as [->|Hne].
    + rewrite lookup_insert_eq, IH.
      destruct (decide (Some z = Some z)) as [_|]; [|congruence].
      destruct (length _); reflexivity.
    + rewrite lookup_insert_ne by assumption.
      destruct (decide (Some y = Some z)) as [|_]; [congruence|]. exact IH.
  - rewrite value_counts_cons_none, occurrences_cons.
    destruct (decide (None = Some z)) as [|_]; [discriminate|]. exact IH.
Qed.


Lemma flatten_ok_iff l : is_ok (flatten l) = true <-> Forall is_many l.
Proof.
  induction l as [|[[z|]|items] l IH]; simpl.
  - split; [constructor|reflexivity].
  - split; [discriminate|]. intros H. inversion H as [|? ? Hm]; subst. destruct Hm.
  - split; [discriminate|]. intros H. inversion H as [|? ? Hm]; subst. destruct Hm.
  - destruct (flatten l); simpl in *; split.
    + constructor; [exact I|]. apply IH. reflexivity.
    + reflexivity.
    + discriminate.
    + intros H. inversion H; subst. apply IH. assumption.
Qed.

Lemma scalars_ok_iff l : is_ok (scalars l) = true <-> Forall is_one l.
Proof.
  induction l as [|[item|items] l IH]; simpl.
  - split; [constructor|reflexivity].
  - destruct (scalars l); simpl in *; split.
    + constructor; [exact I|]. apply IH. reflexivity.
    + reflexivity.
    + discriminate.
    + intros H. inversion H; subst. apply IH. assumption.
  - split; [discriminate|]. intros H. inversion H as [|? ? Hm]; subst. destruct Hm.
Qed.

(** X16.  The classes and the popularity can be computed exactly when the
    train labels are not empty and are either all single items or all item
    lists; an empty column raises an index error and a mixed one a type
    error, and then nothing is stored. *)
Theorem train_items_need_uniform_labels self :
  (is_ok (train_items (train_label_col self)) = true <->
   train_label_col self <> [] /\
   (Forall is_many (train_label_col self) \/ Forall is_one (train_label_col self))) /\
  (_observed_classes self = None ->
   is_ok (train_items (train_label_col self)) = false ->
   fst (observed_classes self) = self /\ is_ok (snd (observed_classes self)) = false) /\
  (_item_popularity self = None ->
   is_ok (train_items (train_label_col self)) = false ->
   fst (item_popularity self) = self /\ is_ok (snd (item_popularity self)) = false).
Proof.
  split; [|split].
  - unfold train_items. destruct (train_label_col self) as [|[item|items] l] eqn:Hl.
    + simpl. split; [discriminate|]. intros [Hne _]. contradiction.
    + change (first_is_sequence (One item :: l)) with (Ok (A := bool) false).
      cbv iota. rewrite scalars_ok_iff. split.
      * intros H. split; [discriminate|]. right. exact H.
      * intros [_ [H|H]]; [|exact H]. inversion H as [|? ? Hm]; subst. destruct Hm.
    + change (first_is_sequence (Many items :: l)) with (Ok (A := bool) true).
      cbv iota. rewrite flatten_ok_iff. split.
      * intros H. split; [discriminate|]. left. exact H.
      * intros [_ [H|H]]; [exact H|]. inversion H as [|? ? Hm]; subst. destruct Hm.
  - unfold observed_classes. intros -> Hfail.
    destruct (train_items (train_label_col self)); [discriminate|]. auto.
  - unfold item_popularity. intros -> Hfail.
    destruct (train_items (train_label_col self)); [discriminate|]. auto.
Qed.



End RecClassesFacts.

(** * Facts about the recommender context's scorers *)

Module RecScorersFacts.
Import RecScorers.

Section Scorers.
Context {MetricFn Kwargs : Type}.
Variable ranking : string -> option MetricFn.
Variable deepcheck_scorer_init : MetricFn -> option string -> result unit.
Variable get_scorer_kwargs : result Kwargs.

#[local] Abbreviation new_scorer' := (new_scorer ranking deepcheck_scorer_init get_scorer_kwargs).
#[local] Abbreviation get_scorers' := (get_scorers ranking deepcheck_scorer_init get_scorer_kwargs).
#[local] Abbreviation get_single_scorer' :=
  (get_single_scorer ranking deepcheck_scorer_init get_scorer_kwargs).






End Scorers.


End RecScorersFacts.

(** * Facts about the argument checks of [SingleDatasetCheck.run] *)

Module BaseChecksCallsFacts.
Import BaseChecks BaseChecksCalls.

Section Run.
Context {DatasetT ItemDatasetT InteractionDatasetT ModelT ContextT ResultT : Type}.
Variable label_type : DatasetT -> LabelType.
Variable new_context :
  ContextKwargs (DatasetT := DatasetT) (ItemDatasetT := ItemDatasetT)
    (InteractionDatasetT := InteractionDatasetT) (ModelT := ModelT) -> W ContextT.
Variable run_logic : ContextT -> DatasetKind -> W ResultT.
Variable finalize_check_result : ContextT -> ResultT -> DatasetKind -> W unit.

#[local] Abbreviation RunArgs := (@Args DatasetT ItemDatasetT InteractionDatasetT ModelT).

Lemma check_args_cases (a : RunArgs) ws :
  check_args label_type a ws =
  if bool_decide (label_type (dataset a) <> RECOMMENDETION) && bool_decide (is_Some (item_dataset a))
  then (ws, Raise (DeepchecksNotSupportedError "item_dataset is not supported for tabular datasets."))
  else if bool_decide (label_type (dataset a) = RECOMMENDETION) && bool_decide (is_Some (model_classes a))
  then (ws, Raise (DeepchecksNotSupportedError "model_classes is not supported for recommendation datasets."))
  else if bool_decide (is_Some (y_pred_train a)) && bool_decide (is_Some (y_pred a))
  then ((ws ++ [deprecation "y_pred_train is deprecated, please use y_pred instead."])%list,
        Raise (DeepchecksValueError
                 "Cannot accept both y_pred_train and y_pred, please pass the data only to y_pred."))
  else ((ws ++ deprecations a)%list,
        Ok (if y_pred_train a is Some v then Some v else y_pred a,
            if y_proba_train a is Some v then Some v else y_proba a)).
Proof.
  unfold check_args, deprecations, ignored_warnings.
  unfold mbind, W_bind, w_bind, mret, W_ret, w_ret, w_raise, warn, when.
  destruct (bool_decide (label_type (dataset a) <> RECOMMENDETION) && _); [reflexivity|].
  destruct (bool_decide (label_type (dataset a) = RECOMMENDETION) && _); [reflexivity|].
  destruct (y_pred_train a), (y_pred a), (y_proba_train a), (y_pred_test a), (y_proba_test a);
    cbn; rewrite <- ?app_assoc, ?app_nil_r; reflexivity.
Qed.

Lemma run_raises_with_check_args context_type (a : RunArgs) ws ws' e :
  check_args label_type a ws = (ws', Raise e) ->
  run label_type new_context run_logic finalize_check_result context_type a ws = (ws', Raise e).
Proof.
  intros Hc. unfold run, mbind, W_bind, w_bind at 1. rewrite Hc. reflexivity.
Qed.

(** X20.  Whatever the context class and the check's logic do, [run] stops
    in its argument checks, before the context is built: with an item
    dataset for a dataset that is not a recommendation dataset, and with
    model classes for one that is, it raises the unsupported error and has
    issued no warning; past these two guards, given both [y_pred_train] and
    [y_pred] it raises the value error after exactly one warning, the
    deprecation of [y_pred_train]. *)
Theorem argument_errors_come_before_the_context context_type (a : RunArgs) ws :
  (label_type (dataset a) <> RECOMMENDETION -> is_Some (item_dataset a) ->
   run label_type new_context run_logic finalize_check_result context_type a ws
   = (ws, Raise (DeepchecksNotSupportedError
                   "item_dataset is not supported for tabular datasets."))) /\
  (label_type (dataset a) = RECOMMENDETION -> is_Some (model_classes a) ->
   run label_type new_context run_logic finalize_check_result context_type a ws
   = (ws, Raise (DeepchecksNotSupportedError
                   "model_classes is not supported for recommendation datasets."))) /\
  ((label_type (dataset a) <> RECOMMENDETION -> item_dataset a = None) ->
   (label_type (dataset a) = RECOMMENDETION -> model_classes a = None) ->
   is_Some (y_pred_train a) -> is_Some (y_pred a) ->
   run label_type new_context run_logic finalize_check_result context_type a ws
   = ((ws ++ [deprecation "y_pred_train is deprecated, please use y_pred instead."])%list,
      Raise (DeepchecksValueError
               "Cannot accept both y_pred_train and y_pred, please pass the data only to y_pred."))).
Proof.
  cbv zeta. split; [|split].
  - intros Hrec Hitem. apply run_raises_with_check_args. rewrite check_args_cases.
    rewrite (bool_decide_eq_true_2 _ Hrec), (bool_decide_eq_true_2 _ Hitem). reflexivity.
  - intros Hrec Hclasses. apply run_raises_with_check_args. rewrite check_args_cases.
    rewrite (bool_decide_eq_false_2 (label_type (dataset a) <> RECOMMENDETION)) by tauto.
    rewrite (bool_decide_eq_true_2 _ Hrec), (bool_decide_eq_true_2 _ Hclasses). reflexivity.
  - intros Hitem Hclasses Hpt Hp. apply run_raises_with_check_args. rewrite check_args_cases.
    rewrite (bool_decide_eq_true_2 _ Hpt), (bool_decide_eq_true_2 _ Hp).
    destruct (decide (label_type (dataset a) = RECOMMENDETION)) as [Hrec|Hrec].
    + rewrite (Hclasses Hrec).
      rewrite (bool_decide_eq_false_2 (label_type (dataset a) <> RECOMMENDETION)) by tauto.
      rewrite (bool_decide_eq_false_2 (is_Some None)) by (intros [? [=]]).
      rewrite andb_false_r. reflexivity.
    + rewrite (Hitem Hrec).
      rewrite (bool_decide_eq_false_2 (label_type (dataset a) = RECOMMENDETION)) by tauto.
      rewrite (bool_decide_eq_false_2 (is_Some None)) by (intros [? [=]]).
      rewrite andb_false_r. reflexivity.
Qed.


(** X22.  [y_pred_test] and [y_proba_test] are ignored: whatever is passed
    for them, the argument checks end the same way, with the same
    predictions chosen, and the context is built from the same keyword
    arguments; they only decide which deprecation warnings are issued. *)
Theorem test_predictions_only_add_warnings context_type (a : RunArgs)
    pred_test proba_test ws :
  snd (check_args label_type (with_test_predictions a pred_test proba_test) ws)
  = snd (check_args label_type a ws) /\
  (forall pred proba,
     context_kwargs label_type context_type (with_test_predictions a pred_test proba_test)
       pred proba
     = context_kwargs label_type context_type a pred proba) /\
  (forall ws' r, check_args label_type a ws = (ws', Ok r) ->
     check_args label_type (with_test_predictions a pred_test proba_test) ws
     = ((ws ++ deprecations (with_test_predictions a pred_test proba_test))%list, Ok r) /\
     Forall (fun w => w_category w = DeprecationWarning)
       (deprecations (with_test_predictions a pred_test proba_test))).
Proof.
  cbv zeta. split; [|split].
  - rewrite !check_args_cases. cbn [with_test_predictions dataset item_dataset model_classes
      y_pred_train y_pred y_proba_train y_proba].
    repeat case_match; reflexivity.
  - intros pred proba. reflexivity.
  - intros ws' r. rewrite !check_args_cases.
    cbn [with_test_predictions dataset item_dataset model_classes
      y_pred_train y_pred y_proba_train y_proba].
    assert (Hdep : Forall (fun w => w_category w = DeprecationWarning)
                     (deprecations (with_test_predictions a pred_test proba_test))).
    { unfold deprecations, ignored_warnings. cbn [with_test_predictions y_pred_train
        y_proba_train y_pred_test y_proba_test].
      destruct (y_pred_train a), (y_proba_train a), pred_test, proba_test;
        repeat constructor. }
    repeat case_match; try discriminate; intros [= <- <-]; (split; [reflexivity|exact Hdep]).
Qed.

(** X23.  The context class chosen by a run stays with the check.  After a
    run on a recommendation dataset that passed the argument checks, a run
    of the same check on any other dataset calls the recommender context
    again, now with the keywords of the tabular call; the recommender
    context has no parameter [model], so the call is a type error.  The
    class stays the recommender context after that run too. *)
Theorem recommender_context_type_sticks context_type (a1 a2 : RunArgs) ws1 ws2 :
  label_type (dataset a1) = RECOMMENDETION ->
  is_ok (snd (check_args label_type a1 ws1)) = true ->
  label_type (dataset a2) <> RECOMMENDETION ->
  is_ok (snd (check_args label_type a2 ws2)) = true ->
  let kept := context_type_after label_type context_type a1 ws1 in
  kept = Some RecContextClass /\
  (forall pred proba,
     k_class (context_kwargs label_type kept a2 pred proba) = RecContextClass) /\
  bind_keywords RecContext_init_params (call_keywords label_type a2)
  = Raise (PyError "TypeError" "__init__() got an unexpected keyword argument 'model'") /\
  context_type_after label_type kept a2 ws2 = Some RecContextClass.
Proof.
  intros Hrec1 Hok1 Hrec2 Hok2. cbv zeta.
  assert (Hkept : context_type_after label_type context_type a1 ws1 = Some RecContextClass).
  { unfold context_type_after, assigned_context_type.
    destruct (snd (check_args label_type a1 ws1)); [|discriminate].
    destruct (decide (label_type (dataset a1) = RECOMMENDETION)); [reflexivity|contradiction]. }
  rewrite Hkept. split; [reflexivity|]. split; [|split].
  - intros pred proba. unfold context_kwargs.
    destruct (decide (label_type (dataset a2) = RECOMMENDETION)); [contradiction|]. reflexivity.
  - unfold call_keywords.
    destruct (decide (label_type (dataset a2) = RECOMMENDETION)); [contradiction|].
    vm_compute. reflexivity.
  - unfold context_type_after, assigned_context_type.
    destruct (snd (check_args label_type a2 ws2)); [|discriminate].
    destruct (decide (label_type (dataset a2) = RECOMMENDETION)); [contradiction|]. reflexivity.
Qed.

End Run.


(** X23: a run on a recommendation dataset followed by a tabular run. *)
Lemma recommender_context_type_sticks_witness :
  context_type_after id None Examples.run_args_recommendation [] = Some RecContextClass /\
  k_class (context_kwargs id (Some RecContextClass) Fixtures.run_args_both_probas None None)
  = RecContextClass /\
  bind_keywords RecContext_init_params (call_keywords id Fixtures.run_args_both_probas)
  = Raise (PyError "TypeError" "__init__() got an unexpected keyword argument 'model'").
Proof.
  destruct (recommender_context_type_sticks id None Examples.run_args_recommendation
              Fixtures.run_args_both_probas [] [] eq_refl ltac:(vm_compute; reflexivity)
              ltac:(vm_compute; discriminate) ltac:(vm_compute; reflexivity))
    as (Hkept & Hclass & Hbind & _).
  split; [exact Hkept|]. rewrite Hkept in Hclass. split; [apply Hclass|exact Hbind].
Defined.

End BaseChecksCallsFacts.

(** * Facts about the session-length drift check *)

Module UserSessionDriftFacts.
Import RecClasses RecClassesFacts UserSessionDrift.

Lemma ge_nat_transitive : Transitive ge_nat.
Proof. intros a b c. unfold ge_nat. lia. Qed.

Lemma ge_nat_total : Total ge_nat.
Proof. intros a b. unfold ge_nat. lia. Qed.

Lemma ge_nat_antisymm : AntiSymm (=) ge_nat.
Proof. intros a b. unfold ge_nat. lia. Qed.

Lemma occurrences_perm (p : option Z -> bool) a b :
  a ≡ₚ b -> length (List.filter p a) = length (List.filter p b).
Proof.
  induction 1 as [|x a b _ IH|x y a|a b c _ IH1 _ IH2]; simpl.
  - reflexivity.
  - destruct (p x); simpl; congruence.
  - destruct (p x), (p y); reflexivity.
  - congruence.
Qed.

Lemma value_counts_perm a b : a ≡ₚ b -> value_counts a = value_counts b.
Proof.
  intros Hperm. apply map_eq. intros z.
  rewrite !value_counts_lookup, (occurrences_perm _ a b Hperm). reflexivity.
Qed.

Lemma value_counts_rename (rename : Z -> Z) a :
  Inj (=) (=) rename ->
  value_counts (map (fmap rename) a) = kmap rename (value_counts a).
Proof.
  intros Hinj. induction a as [|[y|] a IH].
  - simpl. unfold value_counts. simpl. rewrite kmap_empty. reflexivity.
  - change (map (fmap rename) (Some y :: a))
      with (Some (rename y) :: map (fmap rename) a).
    rewrite !value_counts_cons_some, IH, kmap_insert by exact Hinj.
    rewrite lookup_kmap by exact Hinj. reflexivity.
  - change (map (fmap rename) (None :: a)) with (None :: map (fmap rename) a).
    rewrite !value_counts_cons_none. exact IH.
Qed.

Lemma sorted_counts_unique (l k : list nat) :
  l ≡ₚ k -> merge_sort ge_nat l = merge_sort ge_nat k.
Proof.
  intros Hperm.
  apply (@StronglySorted_unique _ ge_nat ge_nat_antisymm).
  - apply (@StronglySorted_merge_sort _ ge_nat _ ge_nat_transitive ge_nat_total).
  - apply (@StronglySorted_merge_sort _ ge_nat _ ge_nat_transitive ge_nat_total).
  - rewrite !merge_sort_Permutation. exact Hperm.
Qed.

Lemma session_lengths_same a b :
  same_sessions a b -> session_lengths a = session_lengths b.
Proof.
  intros (rename & Hinj & Hperm). unfold session_lengths.
  rewrite (value_counts_perm _ _ Hperm), (value_counts_rename rename a Hinj).
  apply sorted_counts_unique. symmetry.
  etrans; [apply Permutation_map, (map_to_list_kmap rename (value_counts a)); exact Hinj|].
  generalize (map_to_list (value_counts a)). intros l.
  induction l as [|[k n] l IH]; [reflexivity|].
  simpl. constructor. exact IH.
Qed.




(** X25.  The check's result depends on the sessions only: reordering the
    rows of either dataset, or renaming its users one to one, changes
    neither the value nor the display nor the error of a run. *)
Theorem drift_depends_on_the_sessions_only
    (calc_drift_and_plot : DriftFn) self user_col shown
    train_frame test_frame train_frame' test_frame' a b a' b' :
  train_frame !! user_col = Some a -> train_frame' !! user_col = Some a' ->
  test_frame !! user_col = Some b -> test_frame' !! user_col = Some b' ->
  same_sessions a a' -> same_sessions b b' ->
  run_logic calc_drift_and_plot self
    (mkContext (Ok (mkInteractionDataset user_col train_frame))
               (Ok (mkInteractionDataset user_col test_frame)) shown)
  = run_logic calc_drift_and_plot self
      (mkContext (Ok (mkInteractionDataset user_col train_frame'))
                 (Ok (mkInteractionDataset user_col test_frame')) shown).
Proof.
  intros Ha Ha' Hb Hb' Hsa Hsb. unfold run_logic, getitem. simpl.
  rewrite Ha, Ha', Hb, Hb'.
  rewrite (session_lengths_same a a' Hsa), (session_lengths_same b b' Hsb). reflexivity.
Qed.

(** X25 on a frame and the same sessions with rows reordered and users
    renamed. *)
Lemma drift_depends_on_the_sessions_only_witness :
  run_logic Examples.drift_by_count Examples.session_check
    (mkContext (Ok (mkInteractionDataset "user" Examples.sessions_frame))
               (Ok (mkInteractionDataset "user" Examples.sessions_frame)) true)
  = run_logic Examples.drift_by_count Examples.session_check
      (mkContext (Ok (mkInteractionDataset "user" Examples.sessions_frame_renamed))
                 (Ok (mkInteractionDataset "user" Examples.sessions_frame)) true).
Proof.
  apply (drift_depends_on_the_sessions_only Examples.drift_by_count Examples.session_check
           "user" true Examples.sessions_frame Examples.sessions_frame
           Examples.sessions_frame_renamed Examples.sessions_frame
           [Some 1; Some 2; Some 1; None] [Some 1; Some 2; Some 1; None]
           [Some 20; Some 10; None; Some 10] [Some 1; Some 2; Some 1; None]);
    try (vm_compute; reflexivity).
  - exists (fun z => 10 * z). split; [intros x y; lia|]. simpl.
    etrans; [apply perm_swap|]. do 2 apply perm_skip. apply perm_swap.
  - exists (fun z => z). split; [intros x y; lia|]. simpl. reflexivity.
Defined.

End UserSessionDriftFacts.
